(** * appointEase: booking flow, customer resolution and end-time arithmetic

    A shallow embedding of the parts of the repository that decide how a
    booking is built and stored:

    - [Js]: the JavaScript string and number primitives the pages use
      ([split], [Number], [toString], [padStart], [parseInt]);
    - [Client]: [calculateEndTime] and the three [mutationFn] bodies that
      build the request of a booking (the two public booking pages and the
      dashboard);
    - [Server]: the tables of [shared/schema.ts], the [DatabaseStorage]
      methods of [server/storage.ts] and the handler of
      [POST /api/book/:businessId/appointment];
    - [Pages], [Storage], [Routes]: the time slots and select values of the
      pages, the remaining reads and deletes of [DatabaseStorage], and the
      services, staff, appointment and booking-info routes;
    - [Invariant]: what the tables of the database satisfy.

    Numbers are [nat]: ids are serial, durations are positive integers and
    every quantity computed here stays far below 2^53, where JavaScript's
    doubles are exact. *)

From Stdlib Require Import String Ascii List Arith PeanoNat NArith Lia Bool.
From Stdlib Require Import Decimal DecimalNat DecimalString.
Import ListNotations.

#[local] Open Scope list_scope.
#[local] Open Scope string_scope.
#[local] Open Scope nat_scope.

(* ===================================================================== *)
(** ** JavaScript primitives *)
(* ===================================================================== *)

Module Js.

(** [s.split(sep)] for a one-character separator.  The result is never
    empty: [split sep ""] is [[""]]. *)
Fixpoint split (sep : ascii) (s : string) : list string :=
  match s with
  | "" => [""]
  | String c r =>
      if Ascii.eqb c sep then "" :: split sep r
      else match split sep r with
           | p :: ps => String c p :: ps
           | [] => [String c ""]
           end
  end.

(** A JavaScript number as the pages use it: a non-negative integer, or
    [NaN] ([None]). *)
Definition number := option nat.

(** [Number(s)].  Exact on the strings made of decimal digits only (the
    empty string is [0], leading zeros are allowed) and on every string for
    which JavaScript answers [NaN]; strings with white space, a sign, a
    fraction, an exponent or a radix prefix denote other values in
    JavaScript and are outside this model.  No component of an ["HH:MM"]
    time is such a string. *)
Definition Number (s : string) : number :=
  option_map Nat.of_uint (NilEmpty.uint_of_string s).

(** [n.toString()] for a non-negative integer. *)
Definition toString (n : nat) : string :=
  NilZero.string_of_uint (Nat.to_uint n).

(** [k] characters read cyclically from the pad string [p]; [cur] is what
    is left of the current copy of [p]. *)
Fixpoint fill (k : nat) (p cur : string) : string :=
  match k with
  | 0 => ""
  | S k' =>
      match cur with
      | String c r => String c (fill k' p r)
      | "" => match p with
              | String c r => String c (fill k' p r)
              | "" => ""
              end
      end
  end.

(** [s.padStart(targetLength, padString)]. *)
Definition padStart (targetLength : nat) (padString : string) (s : string)
  : string :=
  if targetLength <=? String.length s then s
  else match padString with
       | "" => s
       | _ => fill (targetLength - String.length s) padString padString ++ s
       end.

(** Truthiness of an optional string ([undefined] is [None]): the empty
    string is falsy like [undefined]. *)
Definition truthy (o : option string) : bool :=
  match o with
  | Some s => negb (String.eqb s "")
  | None => false
  end.

Definition isDigit (c : ascii) : bool :=
  (48 <=? nat_of_ascii c) && (nat_of_ascii c <=? 57).

(** The value of a digit character. *)
Definition digitValue (c : ascii) : nat := nat_of_ascii c - 48.

(** Strings of decimal digits, and those of exactly two. *)
Fixpoint allDigits (s : string) : bool :=
  match s with
  | "" => true
  | String c r => isDigit c && allDigits r
  end.

Definition twoDigits (s : string) : bool :=
  match s with
  | String a (String b "") => isDigit a && isDigit b
  | _ => false
  end.

(** Value of the longest prefix of decimal digits, most significant first,
    and whether at least one digit was read. *)
Fixpoint digitsPrefix (s : string) (acc : nat) (seen : bool)
  : nat * bool :=
  match s with
  | String c r =>
      if isDigit c then digitsPrefix r (10 * acc + digitValue c) true
      else (acc, seen)
  | "" => (acc, seen)
  end.

(** [parseInt(s)]: the digits in front of [s] are read and the rest is
    ignored; [NaN] when [s] does not start with a digit.  Exact on strings
    that start neither with white space, a sign nor a [0x] prefix; the
    values parsed with it are ids that a select box rendered with
    [toString]. *)
Definition parseInt (s : string) : number :=
  let '(n, seen) := digitsPrefix s 0 false in
  if seen then Some n else None.

(** [x.toString()] for a number. *)
Definition numberToString (x : number) : string :=
  match x with
  | Some n => toString n
  | None => "NaN"
  end.

(** A calendar day, as much of a [Date] as [format] reads. *)
Record Date := mkDate { year : nat; month : nat; day : nat }.

(** [format(d, "yyyy-MM-dd")] of date-fns. *)
Definition format_yyyy_MM_dd (d : Date) : string :=
  padStart 4 "0" (toString (year d)) ++ "-" ++
  padStart 2 "0" (toString (month d)) ++ "-" ++
  padStart 2 "0" (toString (day d)).

End Js.

(* ===================================================================== *)
(** ** shared/schema.ts: rows and insert schemas *)
(* ===================================================================== *)

(** Columns that none of the modelled operations reads or checks
    ([createdAt], prices, descriptions, ...) are left out of the rows.  A
    nullable text column is an [option string]; [None] is SQL [NULL]. *)

Module Business.
Record t := mk { id : nat; name : string }.
End Business.

Module Service.
Record t := mk { id : nat; businessId : nat; name : string; duration : nat }.
End Service.

Module Staff.
Record t := mk { id : nat; businessId : nat; name : string }.
End Staff.

Module Customer.
Record t := mk {
  id : nat;
  businessId : nat;
  name : string;
  email : option string;
  phone : option string;
  notes : option string
}.
End Customer.

Module Appointment.
Record t := mk {
  id : nat;
  businessId : nat;
  customerId : nat;
  serviceId : nat;
  staffId : nat;
  date : string;
  startTime : string;
  endTime : string;
  status : string;
  notes : option string
}.
End Appointment.

(** [customerData] as it arrives in a request body, read with the types
    the handler gives it.  For [email], [phone] and [notes], [None] is a
    field that is absent, [null] or [undefined] (which JSON drops) and a
    field that is present is a string, the type [getCustomerByContact]
    declares for [email] and [phone] and the pages give to all three; a
    present value of another type is outside this model (the schema
    rejects it, after the lookup ran on it).  For [name], [None] is every
    value that is not a string, a missing field included: the schema
    rejects them all alike. *)
Module CustomerData.
Record t := mk {
  name : option string;
  email : option string;
  phone : option string;
  notes : option string
}.
End CustomerData.

(** [InsertCustomer]: what [insertCustomerSchema.parse] returns. *)
Module InsertCustomer.
Record t := mk {
  name : string;
  email : option string;
  phone : option string;
  notes : option string
}.
End InsertCustomer.

(** [appointmentData] as it arrives in a request body.  [None] in a number
    field is an absent field or [null], which is how JSON carries [NaN];
    a number that is present is a non-negative integer. *)
Module AppointmentData.
Record t := mk {
  customerId : option nat;
  serviceId : option nat;
  staffId : option nat;
  date : option string;
  startTime : option string;
  endTime : option string;
  status : option string;
  notes : option string
}.
End AppointmentData.

(** [InsertAppointment]: what [insertAppointmentSchema.parse] returns. *)
Module InsertAppointment.
Record t := mk {
  customerId : nat;
  serviceId : nat;
  staffId : nat;
  date : string;
  startTime : string;
  endTime : string;
  status : option string;
  notes : option string
}.
End InsertAppointment.

Module Schema.

(** [insertCustomerSchema = createInsertSchema(customers).omit({id,
    businessId, createdAt})]: [name] is a [notNull] text column, so the
    schema asks for a string (any string, the empty one too); the nullable
    columns are optional.  [None] is a thrown [ZodError]. *)
Definition insertCustomerSchema_parse (c : CustomerData.t)
  : option InsertCustomer.t :=
  match CustomerData.name c with
  | Some n =>
      Some (InsertCustomer.mk n (CustomerData.email c) (CustomerData.phone c)
              (CustomerData.notes c))
  | None => None
  end.

(** The values of an [integer] column: at most 2^31 - 1. *)
Definition int4 (n : nat) : bool := (N.of_nat n <=? 2147483647)%N.

(** [insertAppointmentSchema = createInsertSchema(appointments).omit({id,
    businessId, createdAt})].  [customerId] is not omitted: like
    [serviceId], [staffId], [date], [startTime] and [endTime] it is a
    [notNull] column without default, hence required.  [status] has a
    default and [notes] is nullable, so both are optional.  The schema of
    an [integer] column also bounds the number by the range of the column
    (a drizzle-zod that leaves the range out lets the number through to
    the database, which has the same range). *)
Definition insertAppointmentSchema_parse (a : AppointmentData.t)
  : option InsertAppointment.t :=
  match AppointmentData.customerId a, AppointmentData.serviceId a,
        AppointmentData.staffId a, AppointmentData.date a,
        AppointmentData.startTime a, AppointmentData.endTime a with
  | Some c, Some sv, Some st, Some d, Some b, Some e =>
      if int4 c && int4 sv && int4 st then
        Some (InsertAppointment.mk c sv st d b e (AppointmentData.status a)
                (AppointmentData.notes a))
      else None
  | _, _, _, _, _, _ => None
  end.

End Schema.

(** The body of [POST /api/book/:businessId/appointment]. *)
Module Request.
Record t := mk {
  customerData : option CustomerData.t;
  appointmentData : option AppointmentData.t
}.
End Request.

(* ===================================================================== *)
(** ** Client: end-time arithmetic and the requests the pages build *)
(* ===================================================================== *)

Module Client.

Import Js.

(** [const [hours, minutes] = startTime.split(":").map(Number)] followed by
    [hours * 60 + minutes]: the first two components are used, further
    ones are ignored, and a missing one is [undefined], which makes the sum
    [NaN]. *)
Definition startMinutes (startTime : string) : number :=
  match map Number (split ":" startTime) with
  | Some hours :: Some minutes :: _ => Some (hours * 60 + minutes)
  | _ => None
  end.

(** The template literal that ends [calculateEndTime]. *)
Definition formatTime (endHours endMins : number) : string :=
  padStart 2 "0" (numberToString endHours) ++ ":" ++
  padStart 2 "0" (numberToString endMins).

(** [calculateEndTime] of the public booking page. *)
Definition calculateEndTime (startTime : string) (duration : nat) : string :=
  let startMinutes := startMinutes startTime in
  let endMinutes := option_map (fun m => m + duration) startMinutes in
  let endHours := option_map (fun m => m / 60) endMinutes in
  let endMins := option_map (fun m => m mod 60) endMinutes in
  formatTime endHours endMins.

(** [services.find(s => s.id === parseInt(serviceId))]. *)
Definition selectedService (services : list Service.t) (serviceId : string)
  : option Service.t :=
  find (fun s => match parseInt serviceId with
                 | Some n => Service.id s =? n
                 | None => false
                 end) services.

(** [selectedService?.duration || 60]. *)
Definition durationOr60 (selected : option Service.t) : nat :=
  match selected with
  | Some s => if Service.duration s =? 0 then 60 else Service.duration s
  | None => 60
  end.

(** [v || undefined] for an optional form field. *)
Definition orUndefined (v : option string) : option string :=
  if truthy v then v else None.

(** The form of the public booking page whose [mutationFn] calls
    [calculateEndTime]; its [date] is a string. *)
Module BookingPage.

Record BookingForm := mkForm {
  customerName : string;
  customerEmail : option string;
  customerPhone : string;
  serviceId : string;
  staffId : string;
  date : string;
  time : string;
  notes : option string
}.

Definition mutationFn (services : list Service.t) (data : BookingForm)
  : Request.t :=
  let customerData :=
    CustomerData.mk (Some (customerName data))
      (orUndefined (customerEmail data))
      (Some (customerPhone data))
      (orUndefined (notes data)) in
  let selectedService := selectedService services (serviceId data) in
  let endTime := calculateEndTime (time data) (durationOr60 selectedService) in
  let appointmentData :=
    AppointmentData.mk None
      (parseInt (serviceId data))
      (parseInt (staffId data))
      (Some (date data))
      (Some (time data))
      (Some endTime)
      (Some "pending")
      (orUndefined (notes data)) in
  Request.mk (Some customerData) (Some appointmentData).

End BookingPage.

(** [client/src/pages/book.tsx]: the end time is computed inline with the
    same five lines as [calculateEndTime], the date is a [Date]. *)
Module Book.

Record BookingForm := mkForm {
  customerName : string;
  customerEmail : option string;
  customerPhone : string;
  serviceId : string;
  staffId : string;
  date : Date;
  time : string
}.

Definition mutationFn (services : list Service.t) (data : BookingForm)
  : Request.t :=
  let customerData :=
    CustomerData.mk (Some (customerName data))
      (orUndefined (customerEmail data))
      (Some (customerPhone data))
      None in
  let selectedService := selectedService services (serviceId data) in
  let startMinutes := startMinutes (time data) in
  let endMinutes :=
    option_map (fun m => m + durationOr60 selectedService) startMinutes in
  let endHours := option_map (fun m => m / 60) endMinutes in
  let endMins := option_map (fun m => m mod 60) endMinutes in
  let endTime := formatTime endHours endMins in
  let appointmentData :=
    AppointmentData.mk None
      (parseInt (serviceId data))
      (parseInt (staffId data))
      (Some (format_yyyy_MM_dd (date data)))
      (Some (time data))
      (Some endTime)
      (Some "confirmed")
      None in
  Request.mk (Some customerData) (Some appointmentData).

End Book.

(** [client/src/pages/dashboard.tsx], [createAppointmentMutation]: the
    staff-entered booking.  It posts to the same public route. *)
Module Dashboard.

Record AppointmentForm := mkForm {
  customerName : string;
  customerEmail : option string;
  customerPhone : string;
  serviceId : string;
  staffId : string;
  date : Date;
  time : string
}.

Definition mutationFn (services : list Service.t) (data : AppointmentForm)
  : Request.t :=
  let customerData :=
    CustomerData.mk (Some (customerName data))
      (orUndefined (customerEmail data))
      (Some (customerPhone data))
      None in
  let selectedService := selectedService services (serviceId data) in
  let startMinutes := startMinutes (time data) in
  let endMinutes :=
    option_map (fun m => m + durationOr60 selectedService) startMinutes in
  let endHours := option_map (fun m => m / 60) endMinutes in
  let endMins := option_map (fun m => m mod 60) endMinutes in
  let endTime := formatTime endHours endMins in
  let appointmentData :=
    AppointmentData.mk None
      (parseInt (serviceId data))
      (parseInt (staffId data))
      (Some (format_yyyy_MM_dd (date data)))
      (Some (time data))
      (Some endTime)
      (Some "confirmed")
      None in
  Request.mk (Some customerData) (Some appointmentData).

End Dashboard.

(** A start time of the form ["HH:MM"]: two digits, a colon, two digits. *)
Definition isHHMM (s : string) : bool :=
  match s with
  | String a (String b (String c (String d (String e "")))) =>
      isDigit a && isDigit b && Ascii.eqb c ":" && isDigit d && isDigit e
  | _ => false
  end.

End Client.

(* ===================================================================== *)
(** ** Server: storage and the public booking handler *)
(* ===================================================================== *)

Module Server.

Import Js.

(** What a handler can throw into [next(error)]. *)
Inductive error :=
| ZodError            (* a schema's [parse] rejected its input *)
| TypeError           (* a property was read on [undefined] *)
| ForeignKeyViolation (* the database refused a row: 23503 *)
| NoValuesToSet       (* drizzle's [update().set({})] *)
| InvalidText         (* the database refused a text value: 22021 *)
| OutOfRange          (* the database refused a number: 22003 *)
| UniqueViolation     (* the database refused a key: 23505 *)
| RangeError.         (* [toISOString] on an invalid date *)

Inductive result (A : Type) :=
| Ok (a : A)
| Throw (e : error).
Arguments Ok {A} a.
Arguments Throw {A} e.

(** The database: every table in insertion order, and the two serial
    sequences the modelled inserts draw from.  A [select] without
    [orderBy] is taken to return the rows in table order. *)
Record Store := mkStore {
  businesses : list Business.t;
  services : list Service.t;
  staff : list Staff.t;
  customers : list Customer.t;
  appointments : list Appointment.t;
  customersSeq : nat;
  appointmentsSeq : nat
}.

(** An [async] storage method or handler: it reads and writes the store
    and returns or throws.  A throw keeps the store as it is at that point:
    there is no transaction around the calls. *)
Definition M (A : Type) : Type := Store -> result A * Store.

Definition ret {A} (a : A) : M A := fun s => (Ok a, s).

Definition throw {A} (e : error) : M A := fun s => (Throw e, s).

Definition bind {A B} (m : M A) (k : A -> M B) : M B :=
  fun s =>
    match m s with
    | (Ok a, s') => k a s'
    | (Throw e, s') => (Throw e, s')
    end.

Definition gets {A} (f : Store -> A) : M A := fun s => (Ok (f s), s).

Notation "x <- m ;; k" := (bind m (fun x => k))
  (at level 61, m at next level, right associativity).

(** SQL [column = value]: never true on [NULL]. *)
Definition eqText (column value : option string) : bool :=
  match column, value with
  | Some a, Some b => String.eqb a b
  | _, _ => false
  end.

Definition hasBusiness (s : Store) (id : nat) : bool :=
  existsb (fun b => Business.id b =? id) (businesses s).

Definition hasService (s : Store) (id : nat) : bool :=
  existsb (fun x => Service.id x =? id) (services s).

Definition hasStaff (s : Store) (id : nat) : bool :=
  existsb (fun x => Staff.id x =? id) (staff s).

Definition hasCustomer (s : Store) (id : nat) : bool :=
  existsb (fun c => Customer.id c =? id) (customers s).

(** [and(eq(customers.businessId, businessId), eq(customers.email, email))]
    and the same on [phone]. *)
Definition matchesEmail (businessId : nat) (email : option string)
    (c : Customer.t) : bool :=
  (Customer.businessId c =? businessId) && eqText (Customer.email c) email.

Definition matchesPhone (businessId : nat) (phone : option string)
    (c : Customer.t) : bool :=
  (Customer.businessId c =? businessId) && eqText (Customer.phone c) phone.

(** [const [row] = await db.select().from(table).where(p)]. *)
Definition selectFirst {A} (p : A -> bool) (table : list A) : option A :=
  hd_error (filter p table).

(** [DatabaseStorage.getCustomerByContact]: a read. *)
Definition getCustomerByContact (s : Store) (businessId : nat)
    (email phone : option string) : option Customer.t :=
  let byEmail :=
    if truthy email
    then selectFirst (matchesEmail businessId email) (customers s)
    else None in
  match byEmail with
  | Some customer => Some customer
  | None =>
      if truthy phone
      then selectFirst (matchesPhone businessId phone) (customers s)
      else None
  end.

(** [DatabaseStorage.createCustomer].  The id comes from the sequence,
    which advances even when the insert is refused.  The refusal kept here
    is the one the table declares, the reference to [businesses]; the text
    of a customer is taken to be text that the database stores
    ([storableText] below), as the forms send it. *)
Definition createCustomer (c : InsertCustomer.t) (businessId : nat)
  : M Customer.t :=
  fun s =>
    let newCustomer :=
      Customer.mk (customersSeq s) businessId (InsertCustomer.name c)
        (InsertCustomer.email c) (InsertCustomer.phone c)
        (InsertCustomer.notes c) in
    if hasBusiness s businessId then
      (Ok newCustomer,
       mkStore (businesses s) (services s) (staff s)
         (customers s ++ [newCustomer]) (appointments s)
         (S (customersSeq s)) (appointmentsSeq s))
    else
      (Throw ForeignKeyViolation,
       mkStore (businesses s) (services s) (staff s) (customers s)
         (appointments s) (S (customersSeq s)) (appointmentsSeq s)).

(** The column default of [status]. *)
Definition statusOrDefault (status : option string) : string :=
  match status with
  | Some st => st
  | None => "pending"
  end.

(** What PostgreSQL stores in a [text] column: any string without the
    character of code 0. *)
Fixpoint storableText (v : string) : bool :=
  match v with
  | "" => true
  | String c r => negb (Ascii.eqb c Ascii.zero) && storableText r
  end.

Definition storableNullable (v : option string) : bool :=
  match v with
  | Some t => storableText t
  | None => true
  end.

(** [DatabaseStorage.createAppointment]: one [insert].  The database
    refuses it when a number or a text value cannot be stored (before
    anything is drawn from the sequence), when the id drawn from the
    sequence is already taken, or when one of the four references of the
    table points to no row; the overlap of times is no reason to refuse. *)
Definition createAppointment (a : InsertAppointment.t) (businessId : nat)
  : M Appointment.t :=
  fun s =>
    let newAppointment :=
      Appointment.mk (appointmentsSeq s) businessId
        (InsertAppointment.customerId a) (InsertAppointment.serviceId a)
        (InsertAppointment.staffId a) (InsertAppointment.date a)
        (InsertAppointment.startTime a) (InsertAppointment.endTime a)
        (statusOrDefault (InsertAppointment.status a))
        (InsertAppointment.notes a) in
    let drawn :=
      mkStore (businesses s) (services s) (staff s) (customers s)
        (appointments s) (customersSeq s) (S (appointmentsSeq s)) in
    if negb (Schema.int4 businessId
             && Schema.int4 (InsertAppointment.customerId a)
             && Schema.int4 (InsertAppointment.serviceId a)
             && Schema.int4 (InsertAppointment.staffId a)) then
      (Throw OutOfRange, s)
    else if negb (storableText (InsertAppointment.date a)
             && storableText (InsertAppointment.startTime a)
             && storableText (InsertAppointment.endTime a)
             && storableNullable (InsertAppointment.status a)
             && storableNullable (InsertAppointment.notes a)) then
      (Throw InvalidText, s)
    else if existsb (fun x => Appointment.id x =? appointmentsSeq s)
              (appointments s) then
      (Throw UniqueViolation, drawn)
    else if hasBusiness s businessId
       && hasCustomer s (InsertAppointment.customerId a)
       && hasService s (InsertAppointment.serviceId a)
       && hasStaff s (InsertAppointment.staffId a) then
      (Ok newAppointment,
       mkStore (businesses s) (services s) (staff s) (customers s)
         (appointments s ++ [newAppointment])
         (customersSeq s) (S (appointmentsSeq s)))
    else
      (Throw ForeignKeyViolation, drawn).

(** [Partial<Appointment>] restricted to the columns that are neither keys
    nor references, with values that the database stores: the updates that
    no constraint of the table can refuse.  An outer [None] is a field left
    out; [notes] can be set to [NULL].  [Storage.PartialAppointment] and
    [Storage.updateAppointment] below take the whole partial row, with the
    refusals of the database. *)
Record AppointmentPatch := mkPatch {
  patch_date : option string;
  patch_startTime : option string;
  patch_endTime : option string;
  patch_status : option string;
  patch_notes : option (option string)
}.

Definition patchIsEmpty (p : AppointmentPatch) : bool :=
  match patch_date p, patch_startTime p, patch_endTime p, patch_status p,
        patch_notes p with
  | None, None, None, None, None => true
  | _, _, _, _, _ => false
  end.

Definition orElse {A} (o : option A) (d : A) : A :=
  match o with
  | Some a => a
  | None => d
  end.

(** [.set(appointment)] on one row. *)
Definition applyPatch (p : AppointmentPatch) (a : Appointment.t)
  : Appointment.t :=
  Appointment.mk (Appointment.id a) (Appointment.businessId a)
    (Appointment.customerId a) (Appointment.serviceId a)
    (Appointment.staffId a)
    (orElse (patch_date p) (Appointment.date a))
    (orElse (patch_startTime p) (Appointment.startTime a))
    (orElse (patch_endTime p) (Appointment.endTime a))
    (orElse (patch_status p) (Appointment.status a))
    (orElse (patch_notes p) (Appointment.notes a)).

(** [DatabaseStorage.updateAppointment]: the rows with the given id take
    the new values, whatever their current status is; the first updated
    row is returned, [undefined] ([None]) when there is none. *)
Definition updateAppointment (id : nat) (appointment : AppointmentPatch)
  : M (option Appointment.t) :=
  fun s =>
    if patchIsEmpty appointment then (Throw NoValuesToSet, s)
    else
      let updated :=
        map (fun a => if Appointment.id a =? id
                      then applyPatch appointment a else a)
            (appointments s) in
      (Ok (selectFirst (fun a => Appointment.id a =? id) updated),
       mkStore (businesses s) (services s) (staff s) (customers s)
         updated (customersSeq s) (appointmentsSeq s)).

(** [DatabaseStorage.getAppointment]. *)
Definition getAppointment (s : Store) (id : nat) : option Appointment.t :=
  selectFirst (fun a => Appointment.id a =? id) (appointments s).

(** [{...validatedAppointment, customerId: customer.id}]. *)
Definition withCustomerId (a : InsertAppointment.t) (customerId : nat)
  : InsertAppointment.t :=
  InsertAppointment.mk customerId (InsertAppointment.serviceId a)
    (InsertAppointment.staffId a) (InsertAppointment.date a)
    (InsertAppointment.startTime a) (InsertAppointment.endTime a)
    (InsertAppointment.status a) (InsertAppointment.notes a).

(** A schema's [parse] inside a handler. *)
Definition parsed {A} (o : option A) : M A :=
  match o with
  | Some a => ret a
  | None => throw ZodError
  end.

(** The block under [// Find or create customer] of the public booking
    handler: the name is validated only when no customer was found. *)
Definition findOrCreateCustomer (businessId : nat) (customerData : CustomerData.t)
  : M Customer.t :=
  customer <- gets (fun s =>
                getCustomerByContact s businessId
                  (CustomerData.email customerData)
                  (CustomerData.phone customerData)) ;;
  match customer with
  | Some customer => ret customer
  | None =>
      validatedCustomer <- parsed (Schema.insertCustomerSchema_parse customerData) ;;
      createCustomer validatedCustomer businessId
  end.

(** [insertAppointmentSchema.parse(appointmentData)] on the field of the
    body, which is [undefined] when the body has none. *)
Definition parseAppointment (body : Request.t) : option InsertAppointment.t :=
  match Request.appointmentData body with
  | Some appointmentData => Schema.insertAppointmentSchema_parse appointmentData
  | None => None
  end.

(** [app.post("/api/book/:businessId/appointment", ...)]: the value is
    what the [201] response carries.  [businessId] is the parsed route
    parameter. *)
Definition bookAppointment (businessId : nat) (body : Request.t)
  : M (Appointment.t * Customer.t) :=
  match Request.customerData body with
  | None => throw TypeError
  | Some customerData =>
      customer <- findOrCreateCustomer businessId customerData ;;
      validatedAppointment <- parsed (parseAppointment body) ;;
      appointment <-
        createAppointment
          (withCustomerId validatedAppointment (Customer.id customer))
          businessId ;;
      ret (appointment, customer)
  end.

End Server.

(* ===================================================================== *)
(** ** What the specification asks of a booking engine *)
(* ===================================================================== *)

(** These definitions follow the words of the specification, not the code;
    the theorems below compare the code with them. *)
Module Spec.

(** Half-open interval overlap of the glossary: [a, b) and [c, d) overlap
    iff [a < d] and [c < b]; here on minutes since midnight. *)
Definition overlapsMinutes (a b c d : nat) : bool :=
  (a <? d) && (c <? b).

(** The same on ["HH:MM"] strings; [false] when a time does not parse. *)
Definition overlaps (start1 end1 start2 end2 : string) : bool :=
  match Client.startMinutes start1, Client.startMinutes end1,
        Client.startMinutes start2, Client.startMinutes end2 with
  | Some a, Some b, Some c, Some d => overlapsMinutes a b c d
  | _, _, _, _ => false
  end.


End Spec.

(* ===================================================================== *)
(** ** Concrete stores and requests *)
(* ===================================================================== *)

Module Scenario.

Import Server.

(** Business 1 with one 30-minute service and one staff member, and no
    customer or appointment yet. *)
Definition shop : Store :=
  mkStore [Business.mk 1 "B"] [Service.mk 1 1 "Cut" 30] [Staff.mk 1 1 "S"]
    [] [] 1 1.

Definition ann : Customer.t :=
  Customer.mk 1 1 "Ann" (Some "ann@example.com") (Some "555-0100") None.

(** The scenario of the specification: staff 1 has a confirmed appointment
    on 2024-01-10 from 10:00 to 10:30. *)
Definition existing : Appointment.t :=
  Appointment.mk 1 1 1 1 1 "2024-01-10" "10:00" "10:30" "confirmed" None.

Definition booked : Store :=
  mkStore [Business.mk 1 "B"] [Service.mk 1 1 "Cut" 30] [Staff.mk 1 1 "S"]
    [ann] [existing] 2 2.

Definition bob : CustomerData.t :=
  CustomerData.mk (Some "Bob") (Some "bob@example.com") None None.

(** A request for staff 1 on 2024-01-10 with the given window.  The
    [customerId] it carries only has to be a number: the handler replaces
    it. *)
Definition requestFor (startTime endTime : string) : Request.t :=
  Request.mk (Some bob)
    (Some (AppointmentData.mk (Some 0) (Some 1) (Some 1) (Some "2024-01-10")
             (Some startTime) (Some endTime) (Some "pending") None)).

(** A well-formed request of a new customer for a service that does not
    exist. *)
Definition unknownService : Request.t :=
  Request.mk (Some bob)
    (Some (AppointmentData.mk (Some 0) (Some 99) (Some 1) (Some "2024-01-10")
             (Some "10:00") (Some "10:30") (Some "pending") None)).

(** A customer stored with an empty email, as the handler stores it when a
    request carries one. *)
Definition blank : Customer.t := Customer.mk 1 1 "Ann" (Some "") None None.

Definition shopWithBlank : Store :=
  mkStore [Business.mk 1 "B"] [Service.mk 1 1 "Cut" 30] [Staff.mk 1 1 "S"]
    [blank] [] 2 1.

Definition emptyEmail (name : string) : CustomerData.t :=
  CustomerData.mk (Some name) (Some "") None None.



Definition setStatus (status : string) : AppointmentPatch :=
  mkPatch None None None (Some status) None.

(** What a visitor types into the public booking page. *)
Definition visit : Client.BookingPage.BookingForm :=
  Client.BookingPage.mkForm "Bob" (Some "bob@example.com") "555-0199"
    "1" "1" "2024-01-10" "10:00" None.

Definition visitBook : Client.Book.BookingForm :=
  Client.Book.mkForm "Bob" (Some "bob@example.com") "555-0199"
    "1" "1" (Js.mkDate 2024 1 10) "10:00".

(** A page's request completed with the [customerId] field that
    [insertAppointmentSchema] asks for and no page sends. *)
Definition withCustomerIdField (r : Request.t) (customerId : nat) : Request.t :=
  Request.mk (Request.customerData r)
    (option_map
       (fun a =>
          AppointmentData.mk (Some customerId) (AppointmentData.serviceId a)
            (AppointmentData.staffId a) (AppointmentData.date a)
            (AppointmentData.startTime a) (AppointmentData.endTime a)
            (AppointmentData.status a) (AppointmentData.notes a))
       (Request.appointmentData r)).

End Scenario.

(* ===================================================================== *)
(** ** More of the pages, the storage and the routes *)
(* ===================================================================== *)

Module Pages.

(** [timeSlots]: the start times a page offers, the same list in the two
    public booking pages and in the dashboard. *)
Definition timeSlots : list string :=
  ["09:00"; "09:30"; "10:00"; "10:30"; "11:00"; "11:30";
   "12:00"; "12:30"; "13:00"; "13:30"; "14:00"; "14:30";
   "15:00"; "15:30"; "16:00"; "16:30"; "17:00"; "17:30"].

(** The [value] a select box gives to a service or staff member:
    [service.id.toString()]. *)
Definition optionValue (id : nat) : string := Js.toString id.

(** Whether a string holds the separator of [split(":")]. *)
Fixpoint hasColon (s : string) : bool :=
  match s with
  | EmptyString => false
  | String c r => Ascii.eqb c ":" || hasColon r
  end.

End Pages.

Module Storage.

Import Server.

(** [DatabaseStorage.getBusiness]. *)
Definition getBusiness (s : Store) (id : nat) : option Business.t :=
  selectFirst (fun b => Business.id b =? id) (businesses s).

(** [DatabaseStorage.getServices] and [getService]. *)
Definition getServices (s : Store) (businessId : nat) : list Service.t :=
  filter (fun x => Service.businessId x =? businessId) (services s).

Definition getService (s : Store) (id : nat) : option Service.t :=
  selectFirst (fun x => Service.id x =? id) (services s).

(** [DatabaseStorage.getStaff] and [getStaffMember]. *)
Definition getStaff (s : Store) (businessId : nat) : list Staff.t :=
  filter (fun x => Staff.businessId x =? businessId) (staff s).

Definition getStaffMember (s : Store) (id : nat) : option Staff.t :=
  selectFirst (fun x => Staff.id x =? id) (staff s).

(** [DatabaseStorage.getCustomers] and [getCustomer]. *)
Definition getCustomers (s : Store) (businessId : nat) : list Customer.t :=
  filter (fun c => Customer.businessId c =? businessId) (customers s).

Definition getCustomer (s : Store) (id : nat) : option Customer.t :=
  selectFirst (fun c => Customer.id c =? id) (customers s).

(** [DatabaseStorage.deleteAppointment]: no table references
    [appointments], so the delete is never refused. *)
Definition deleteAppointment (id : nat) : M unit :=
  fun s =>
    (Ok tt,
     mkStore (businesses s) (services s) (staff s) (customers s)
       (filter (fun a => negb (Appointment.id a =? id)) (appointments s))
       (customersSeq s) (appointmentsSeq s)).

(** [DatabaseStorage.deleteService].  [appointments.serviceId] references
    [services.id] without an [onDelete] action, so the database refuses to
    delete a service that an appointment still names. *)
Definition deleteService (id : nat) : M unit :=
  fun s =>
    if existsb (fun a => Appointment.serviceId a =? id) (appointments s)
    then (Throw ForeignKeyViolation, s)
    else
      (Ok tt,
       mkStore (businesses s)
         (filter (fun x => negb (Service.id x =? id)) (services s))
         (staff s) (customers s) (appointments s)
         (customersSeq s) (appointmentsSeq s)).

(** The store with another table of appointments. *)
Definition withAppointments (s : Store) (rows : list Appointment.t) : Store :=
  mkStore (businesses s) (services s) (staff s) (customers s) rows
    (customersSeq s) (appointmentsSeq s).

(** [Partial<Appointment>], every column of it.  An outer [None] is a field
    left out; [notes] can be set to [NULL].  [createdAt], a column the rows
    leave out, is a [Date]: its time value, [None] for an invalid date. *)
Record PartialAppointment := mkPartial {
  pa_id : option nat;
  pa_businessId : option nat;
  pa_customerId : option nat;
  pa_serviceId : option nat;
  pa_staffId : option nat;
  pa_date : option string;
  pa_startTime : option string;
  pa_endTime : option string;
  pa_status : option string;
  pa_notes : option (option string);
  pa_createdAt : option (option nat)
}.

Definition partialIsEmpty (p : PartialAppointment) : bool :=
  match pa_id p, pa_businessId p, pa_customerId p, pa_serviceId p,
        pa_staffId p, pa_date p, pa_startTime p, pa_endTime p, pa_status p,
        pa_notes p with
  | None, None, None, None, None, None, None, None, None, None =>
      match pa_createdAt p with
      | None => true
      | Some _ => false
      end
  | _, _, _, _, _, _, _, _, _, _ => false
  end.

(** [toISOString], by which the driver value of a [Date] is made, throws on
    an invalid date. *)
Definition invalidDate (p : PartialAppointment) : bool :=
  match pa_createdAt p with
  | Some None => true
  | _ => false
  end.

Definition int4Nullable (v : option nat) : bool :=
  match v with
  | Some n => Schema.int4 n
  | None => true
  end.

(** The numbers of the statement fit their columns. *)
Definition partialInRange (id : nat) (p : PartialAppointment) : bool :=
  Schema.int4 id && int4Nullable (pa_id p) && int4Nullable (pa_businessId p)
  && int4Nullable (pa_customerId p) && int4Nullable (pa_serviceId p)
  && int4Nullable (pa_staffId p).

(** The text values of the statement can be stored. *)
Definition partialStorable (p : PartialAppointment) : bool :=
  storableNullable (pa_date p) && storableNullable (pa_startTime p)
  && storableNullable (pa_endTime p) && storableNullable (pa_status p)
  && match pa_notes p with
     | Some v => storableNullable v
     | None => true
     end.

(** [.set(appointment)] on one row. *)
Definition applyPartial (p : PartialAppointment) (a : Appointment.t)
  : Appointment.t :=
  Appointment.mk
    (orElse (pa_id p) (Appointment.id a))
    (orElse (pa_businessId p) (Appointment.businessId a))
    (orElse (pa_customerId p) (Appointment.customerId a))
    (orElse (pa_serviceId p) (Appointment.serviceId a))
    (orElse (pa_staffId p) (Appointment.staffId a))
    (orElse (pa_date p) (Appointment.date a))
    (orElse (pa_startTime p) (Appointment.startTime a))
    (orElse (pa_endTime p) (Appointment.endTime a))
    (orElse (pa_status p) (Appointment.status a))
    (orElse (pa_notes p) (Appointment.notes a)).

(** The new id is the id of another row. *)
Definition keyTaken (s : Store) (id : nat) (p : PartialAppointment) : bool :=
  match pa_id p with
  | Some k =>
      negb (k =? id) && existsb (fun a => Appointment.id a =? k) (appointments s)
  | None => false
  end.

(** The references that the statement sets point to rows. *)
Definition referencesExist (s : Store) (p : PartialAppointment) : bool :=
  match pa_businessId p with Some k => hasBusiness s k | None => true end
  && match pa_customerId p with Some k => hasCustomer s k | None => true end
  && match pa_serviceId p with Some k => hasService s k | None => true end
  && match pa_staffId p with Some k => hasStaff s k | None => true end.

(** [DatabaseStorage.updateAppointment] on the whole partial row.  Drizzle
    refuses an empty [set] and an invalid date; the database refuses
    values it cannot store and, when a row is updated, a key that is taken
    and a reference to no row; a refused statement changes nothing.
    [returning()] gives the updated rows, of which the method returns the
    first, [undefined] when no row has the id. *)
Definition updateAppointment (id : nat) (appointment : PartialAppointment)
  : M (option Appointment.t) :=
  fun s =>
    let matched := filter (fun a => Appointment.id a =? id) (appointments s) in
    if partialIsEmpty appointment then (Throw NoValuesToSet, s)
    else if invalidDate appointment then (Throw RangeError, s)
    else if negb (partialInRange id appointment) then (Throw OutOfRange, s)
    else if negb (partialStorable appointment) then (Throw InvalidText, s)
    else
      match matched with
      | [] => (Ok None, s)
      | _ :: _ =>
          if keyTaken s id appointment then (Throw UniqueViolation, s)
          else if negb (referencesExist s appointment)
          then (Throw ForeignKeyViolation, s)
          else
            (Ok (hd_error (map (applyPartial appointment) matched)),
             withAppointments s
               (map (fun a => if Appointment.id a =? id
                              then applyPartial appointment a else a)
                    (appointments s)))
      end.

(** A patch of the five plain columns as a partial row. *)
Definition ofPatch (p : AppointmentPatch) : PartialAppointment :=
  mkPartial None None None None None (patch_date p) (patch_startTime p)
    (patch_endTime p) (patch_status p) (patch_notes p) None.

End Storage.

Module Routes.

Import Server Storage.

(** What a handler sends: [res.status(n).json(body)], [res.json(body)]
    (status 200) or [res.sendStatus(n)]. *)
Inductive body :=
| Message (message : string)
| ServiceList (rows : list Service.t)
| StaffList (rows : list Staff.t)
| AppointmentRow (row : Appointment.t)
| BookingInfo (business : Business.t) (services : list Service.t)
              (staff : list Staff.t)
| NoBody.

Record response := mkResponse { status : nat; sent : body }.

Definition unauthorized : response := mkResponse 401 (Message "Unauthorized").

Definition businessNotFound : response :=
  mkResponse 404 (Message "Business not found").

Section WithUserId.

(** The [userId] column of [businesses], which the row type above leaves
    out. *)
Variable userId : Business.t -> nat.

(** [DatabaseStorage.getBusinessByUserId]. *)
Definition getBusinessByUserId (s : Store) (user : nat) : option Business.t :=
  selectFirst (fun b => userId b =? user) (businesses s).

(** The two checks that open a management route; [user] is [req.user.id]
    when [req.isAuthenticated()] and [None] otherwise. *)
Definition withBusiness (user : option nat) (k : Business.t -> M response)
  : M response :=
  match user with
  | None => ret unauthorized
  | Some u =>
      business <- gets (fun s => getBusinessByUserId s u) ;;
      match business with
      | None => ret businessNotFound
      | Some business => k business
      end
  end.

(** [app.get("/api/services", ...)]. *)
Definition getServicesRoute (user : option nat) : M response :=
  withBusiness user (fun business =>
    services <- gets (fun s => getServices s (Business.id business)) ;;
    ret (mkResponse 200 (ServiceList services))).

(** [app.get("/api/staff", ...)]. *)
Definition getStaffRoute (user : option nat) : M response :=
  withBusiness user (fun business =>
    staff <- gets (fun s => getStaff s (Business.id business)) ;;
    ret (mkResponse 200 (StaffList staff))).

(** [app.post("/api/appointments", ...)]: the staff-side insert.  The
    [customerId] is the one of the body. *)
Definition postAppointmentRoute (user : option nat)
    (reqBody : option AppointmentData.t) : M response :=
  withBusiness user (fun business =>
    appointmentData <-
      parsed (match reqBody with
              | Some b => Schema.insertAppointmentSchema_parse b
              | None => None
              end) ;;
    appointment <- createAppointment appointmentData (Business.id business) ;;
    ret (mkResponse 201 (AppointmentRow appointment))).

End WithUserId.

(** [app.delete("/api/services/:id", ...)]: the only check is the
    session; [serviceId] is the parsed route parameter. *)
Definition deleteServiceRoute (user : option nat) (serviceId : nat)
  : M response :=
  match user with
  | None => ret unauthorized
  | Some _ =>
      _ <- deleteService serviceId ;;
      ret (mkResponse 204 NoBody)
  end.

(** [app.get("/api/book/:businessId", ...)]: public. *)
Definition getBookingInfoRoute (businessId : nat) : M response :=
  business <- gets (fun s => getBusiness s businessId) ;;
  match business with
  | None => ret businessNotFound
  | Some business =>
      services <- gets (fun s => getServices s businessId) ;;
      staff <- gets (fun s => getStaff s businessId) ;;
      ret (mkResponse 200 (BookingInfo business services staff))
  end.

End Routes.

(** What the tables of a database satisfy: serial ids are unique and below
    their sequence, and every reference points to a row. *)
Module Invariant.

Import Server.

Record consistent (s : Store) : Prop := mkConsistent {
  customerIdsBelowSeq :
    forall c, In c (customers s) -> Customer.id c < customersSeq s;
  customerIdsUnique : NoDup (map Customer.id (customers s));
  appointmentIdsBelowSeq :
    forall a, In a (appointments s) -> Appointment.id a < appointmentsSeq s;
  appointmentIdsUnique : NoDup (map Appointment.id (appointments s));
  customerReferences :
    forall c, In c (customers s) -> hasBusiness s (Customer.businessId c) = true;
  appointmentReferences :
    forall a, In a (appointments s) ->
      hasBusiness s (Appointment.businessId a) = true /\
      hasCustomer s (Appointment.customerId a) = true /\
      hasService s (Appointment.serviceId a) = true /\
      hasStaff s (Appointment.staffId a) = true
}.

(** The writes modelled here, as the requests that trigger them. *)
Inductive write :=
| Book (businessId : nat) (reqBody : Request.t)
| UpdateAppointment (id : nat) (appointment : Storage.PartialAppointment)
| DeleteAppointment (id : nat)
| DeleteService (id : nat).

(** The store a write leaves, whether it returned or threw. *)
Definition after (w : write) (s : Store) : Store :=
  match w with
  | Book b reqBody => snd (bookAppointment b reqBody s)
  | UpdateAppointment id appointment =>
      snd (Storage.updateAppointment id appointment s)
  | DeleteAppointment id => snd (Storage.deleteAppointment id s)
  | DeleteService id => snd (Storage.deleteService id s)
  end.

(** An update that leaves the [id] column alone; every other write does. *)
Definition keepsId (w : write) : bool :=
  match w with
  | UpdateAppointment _ appointment =>
      match Storage.pa_id appointment with
      | None => true
      | Some _ => false
      end
  | _ => true
  end.

Definition afterAll (ws : list write) (s : Store) : Store :=
  fold_left (fun st w => after w st) ws s.

End Invariant.

Module Cases.

Import Server.

(** Two appointments of staff 1 on the same day. *)
Definition second : Appointment.t :=
  Appointment.mk 2 1 1 1 1 "2024-01-10" "11:00" "11:30" "pending" None.

Definition twice : Store :=
  mkStore [Business.mk 1 "B"] [Service.mk 1 1 "Cut" 30] [Staff.mk 1 1 "S"]
    [Scenario.ann] [Scenario.existing; second] 2 3.

(** [{ status }] as a partial row. *)
Definition status (v : string) : Storage.PartialAppointment :=
  Storage.ofPatch (Scenario.setStatus v).

(** A body for the staff-side route: customer 1, service 1, staff 1, and
    no status. *)
Definition staffEntry : AppointmentData.t :=
  AppointmentData.mk (Some 1) (Some 1) (Some 1) (Some "2024-01-10")
    (Some "11:00") (Some "11:30") None None.

End Cases.

(* ===================================================================== *)
(** ** Decimal strings *)
(* ===================================================================== *)

Section DecimalStrings.

Import Js.

Lemma isDigit_not_colon (c : ascii) :
  isDigit c = true -> Ascii.eqb c ":" = false.
Proof.
  destruct (Ascii.eqb c ":") eqn:E; [|reflexivity].
  apply Ascii.eqb_eq in E. subst c. vm_compute. intros H. discriminate H.
Qed.

Lemma split_allDigits (x : string) :
  allDigits x = true -> split ":" x = [x].
Proof.
  induction x as [|c x IH]; simpl; [reflexivity|].
  intros H. apply andb_true_iff in H as [Hc Hx].
  rewrite (isDigit_not_colon c Hc), (IH Hx). reflexivity.
Qed.

Lemma split_colon (x y : string) :
  allDigits x = true -> allDigits y = true ->
  split ":" (x ++ ":" ++ y) = [x; y].
Proof.
  intros Hx Hy. induction x as [|c x IH]; simpl.
  - now rewrite (split_allDigits y Hy).
  - simpl in Hx. apply andb_true_iff in Hx as [Hc Hx].
    rewrite (isDigit_not_colon c Hc). simpl in IH. now rewrite (IH Hx).
Qed.

Lemma allDigits_string_of_uint (d : uint) :
  allDigits (NilEmpty.string_of_uint d) = true.
Proof. induction d; simpl; auto. Qed.

Lemma allDigits_toString (n : nat) : allDigits (toString n) = true.
Proof.
  unfold toString, NilZero.string_of_uint.
  destruct (Nat.to_uint n) as [|u|u|u|u|u|u|u|u|u|u]; try reflexivity;
    apply allDigits_string_of_uint.
Qed.

Lemma Number_toString (n : nat) : Number (toString n) = Some n.
Proof.
  unfold Number, toString, NilZero.string_of_uint.
  assert (H : option_map Nat.of_uint
                (NilEmpty.uint_of_string
                   (NilEmpty.string_of_uint (Nat.to_uint n))) = Some n).
  { rewrite NilEmpty.usu. simpl. now rewrite DecimalNat.Unsigned.of_to. }
  destruct (Nat.to_uint n); exact H.
Qed.

Lemma Number_zero_prefix (s : string) :
  Number (String "0" s) = Number s.
Proof.
  unfold Number. simpl.
  destruct (NilEmpty.uint_of_string s); reflexivity.
Qed.

Lemma padStart2_cases (s : string) :
  padStart 2 "0" s = s \/ padStart 2 "0" s = String "0" s
  \/ padStart 2 "0" s = String "0" (String "0" s).
Proof.
  destruct s as [|a [|b r]]; unfold padStart; simpl; auto.
Qed.

Lemma allDigits_padStart2 (s : string) :
  allDigits s = true -> allDigits (padStart 2 "0" s) = true.
Proof.
  intros H.
  destruct (padStart2_cases s) as [E|[E|E]]; rewrite E; simpl; auto.
Qed.

Lemma Number_padStart2 (s : string) :
  Number (padStart 2 "0" s) = Number s.
Proof.
  destruct (padStart2_cases s) as [E|[E|E]]; rewrite E;
    rewrite ?Number_zero_prefix; reflexivity.
Qed.

Lemma twoDigits_below_100 (n : nat) :
  n < 100 -> twoDigits (padStart 2 "0" (toString n)) = true.
Proof.
  intros H.
  assert (A : forallb (fun k => twoDigits (padStart 2 "0" (toString k)))
                (seq 0 100) = true) by (vm_compute; reflexivity).
  rewrite forallb_forall in A. apply A, in_seq. lia.
Qed.

Lemma isHHMM_of_twoDigits (x y : string) :
  twoDigits x = true -> twoDigits y = true ->
  Client.isHHMM (x ++ ":" ++ y) = true.
Proof.
  destruct x as [|a [|b [|? ?]]]; simpl; try discriminate.
  destruct y as [|c [|e [|? ?]]]; simpl; try discriminate.
  intros H1 H2.
  apply andb_true_iff in H1 as [-> ->], H2 as [-> ->]. reflexivity.
Qed.

End DecimalStrings.

(* ===================================================================== *)
(** ** End-time arithmetic *)
(* ===================================================================== *)

Section EndTime.

Import Js Client.

Lemma Number_two_digits (a b : ascii) :
  isDigit a = true -> isDigit b = true ->
  Number (String a (String b "")) = Some (10 * digitValue a + digitValue b).
Proof.
  intros Ha Hb.
  assert (A : forallb (fun i => forallb (fun j =>
                 match Number (String (ascii_of_nat i)
                                 (String (ascii_of_nat j) "")) with
                 | Some v => v =? 10 * (i - 48) + (j - 48)
                 | None => false
                 end) (seq 48 10)) (seq 48 10) = true)
    by (vm_compute; reflexivity).
  assert (R : forall c, isDigit c = true -> In (nat_of_ascii c) (seq 48 10)).
  { intros c Hc. unfold isDigit in Hc.
    apply andb_true_iff in Hc as [L U].
    apply Nat.leb_le in L. apply Nat.leb_le in U. apply in_seq. lia. }
  rewrite forallb_forall in A. specialize (A _ (R a Ha)).
  rewrite forallb_forall in A. specialize (A _ (R b Hb)).
  rewrite !ascii_nat_embedding in A.
  destruct (Number (String a (String b ""))) as [v|]; [|discriminate].
  apply Nat.eqb_eq in A. now subst v.
Qed.

(** The minutes since midnight that the code reads off an ["HH:MM"]
    string: [HH * 60 + MM]. *)
Lemma startMinutes_HHMM (a b c e : ascii) :
  isDigit a = true -> isDigit b = true ->
  isDigit c = true -> isDigit e = true ->
  startMinutes (String a (String b (String ":" (String c (String e "")))))
  = Some ((10 * digitValue a + digitValue b) * 60
          + (10 * digitValue c + digitValue e)).
Proof.
  intros Ha Hb Hc He. unfold startMinutes.
  change (String a (String b (String ":" (String c (String e "")))))
    with (String a (String b "") ++ ":" ++ String c (String e "")).
  rewrite split_colon by (simpl; rewrite ?Ha, ?Hb, ?Hc, ?He; reflexivity).
  simpl map.
  now rewrite (Number_two_digits a b Ha Hb), (Number_two_digits c e Hc He).
Qed.

Lemma isHHMM_startMinutes (s : string) :
  isHHMM s = true -> exists t, startMinutes s = Some t.
Proof.
  destruct s as [|a [|b [|c [|d [|e [|? ?]]]]]]; simpl; try discriminate.
  intros H.
  apply andb_true_iff in H as [H He]. apply andb_true_iff in H as [H Hd].
  apply andb_true_iff in H as [H Hc]. apply andb_true_iff in H as [Ha Hb].
  apply Ascii.eqb_eq in Hc. subst c.
  eexists. now apply startMinutes_HHMM.
Qed.

(** The components of a formatted time read back as the numbers that
    were formatted. *)
Lemma components_formatTime (h m : nat) :
  map Number (split ":" (formatTime (Some h) (Some m))) = [Some h; Some m].
Proof.
  unfold formatTime, numberToString.
  rewrite split_colon by (apply allDigits_padStart2, allDigits_toString).
  simpl map. now rewrite !Number_padStart2, !Number_toString.
Qed.

Lemma startMinutes_formatTime (h m : nat) :
  startMinutes (formatTime (Some h) (Some m)) = Some (h * 60 + m).
Proof. unfold startMinutes. now rewrite components_formatTime. Qed.

Lemma isHHMM_formatTime (h m : nat) :
  h < 100 -> m < 100 -> isHHMM (formatTime (Some h) (Some m)) = true.
Proof.
  intros Hh Hm. unfold formatTime, numberToString.
  apply isHHMM_of_twoDigits; now apply twoDigits_below_100.
Qed.

Lemma length_padStart2 (s : string) : 2 <= String.length (padStart 2 "0" s).
Proof. destruct s as [|a [|b r]]; unfold padStart; simpl; lia. Qed.

Lemma calculateEndTime_eq (s : string) (d t : nat) :
  startMinutes s = Some t ->
  calculateEndTime s d = formatTime (Some ((t + d) / 60)) (Some ((t + d) mod 60)).
Proof. intros E. unfold calculateEndTime. now rewrite E. Qed.

End EndTime.

(** C3.  For a start time of the form "HH:MM" and a positive duration in
    whole minutes, [calculateEndTime] returns the start time advanced by
    exactly the duration: the result is an hour component, a colon and a
    minute component, where the hour component is the decimal hour of
    start + duration zero-padded to two digits (more digits only when the
    hour is 100 or more) and the minute component is its minute as exactly
    two digits; read back the way the code reads a time, the result denotes
    start + duration minutes.  The public booking page puts exactly this
    value in [endTime] when the chosen service has a positive duration; 45
    minutes from "09:10" give "09:55". *)
Theorem calculateEndTime_advances_by_duration :
  (forall (startTime : string) (duration : nat),
      Client.isHHMM startTime = true ->
      0 < duration ->
      exists t hh mm,
        Client.startMinutes startTime = Some t /\
        Client.calculateEndTime startTime duration = hh ++ ":" ++ mm /\
        Js.allDigits hh = true /\ 2 <= String.length hh /\
        Js.twoDigits mm = true /\
        Js.Number hh = Some ((t + duration) / 60) /\
        Js.Number mm = Some ((t + duration) mod 60) /\
        Client.startMinutes (Client.calculateEndTime startTime duration)
        = Some (t + duration) /\
        ((t + duration) / 60 < 100 ->
         Client.isHHMM (Client.calculateEndTime startTime duration) = true))
  /\
  (forall services data service,
      Client.selectedService services (Client.BookingPage.serviceId data)
      = Some service ->
      0 < Service.duration service ->
      option_map AppointmentData.endTime
        (Request.appointmentData (Client.BookingPage.mutationFn services data))
      = Some (Some (Client.calculateEndTime (Client.BookingPage.time data)
                      (Service.duration service))))
  /\
  Client.calculateEndTime "09:10" 45 = "09:55".
Proof.
  split; [|split; [|reflexivity]].
  - intros s d Hs Hd.
    destruct (isHHMM_startMinutes s Hs) as [t Ht].
    assert (Hm : (t + d) mod 60 < 60) by (apply Nat.mod_upper_bound; discriminate).
    exists t, (Js.padStart 2 "0" (Js.toString ((t + d) / 60))),
      (Js.padStart 2 "0" (Js.toString ((t + d) mod 60))).
    rewrite (calculateEndTime_eq s d t Ht).
    split; [exact Ht|]. split; [reflexivity|].
    split; [apply allDigits_padStart2, allDigits_toString|].
    split; [apply length_padStart2|].
    split; [apply twoDigits_below_100; lia|].
    split; [now rewrite Number_padStart2, Number_toString|].
    split; [now rewrite Number_padStart2, Number_toString|].
    split.
    + rewrite startMinutes_formatTime. f_equal.
      pose proof (Nat.div_mod (t + d) 60). lia.
    + intros B. apply isHHMM_formatTime; [exact B|lia].
  - intros services data service Hsel Hpos.
    unfold Client.BookingPage.mutationFn. simpl.
    rewrite Hsel. unfold Client.durationOr60.
    destruct (Service.duration service =? 0) eqn:E.
    + apply Nat.eqb_eq in E. lia.
    + reflexivity.
Qed.

Lemma calculateEndTime_advances_by_duration_witness :
  exists t hh mm,
    Client.startMinutes "09:10" = Some t /\
    Client.calculateEndTime "09:10" 45 = hh ++ ":" ++ mm /\
    Js.allDigits hh = true /\ 2 <= String.length hh /\
    Js.twoDigits mm = true /\
    Js.Number hh = Some ((t + 45) / 60) /\
    Js.Number mm = Some ((t + 45) mod 60) /\
    Client.startMinutes (Client.calculateEndTime "09:10" 45) = Some (t + 45) /\
    ((t + 45) / 60 < 100 ->
     Client.isHHMM (Client.calculateEndTime "09:10" 45) = true).
Proof.
  apply (proj1 calculateEndTime_advances_by_duration "09:10" 45).
  - reflexivity.
  - apply Nat.lt_0_succ.
Defined.

(** C10.  The end-time computation does not wrap at 24 hours: when start
    plus duration reaches 1440 minutes, the hour component of the result
    is 24 or more (and the components still add up to start + duration);
    "23:30" plus 60 minutes is "24:30".  The two pages that inline the
    computation produce the same string as [calculateEndTime]. *)
Theorem calculateEndTime_no_wrap_around :
  (forall (startTime : string) (duration t : nat),
      Client.isHHMM startTime = true ->
      Client.startMinutes startTime = Some t ->
      1440 <= t + duration ->
      exists endHours endMins,
        map Js.Number (Js.split ":" (Client.calculateEndTime startTime duration))
        = [Some endHours; Some endMins] /\
        24 <= endHours /\ endMins < 60 /\
        endHours * 60 + endMins = t + duration)
  /\
  Client.calculateEndTime "23:30" 60 = "24:30"
  /\
  (forall services data,
      option_map AppointmentData.endTime
        (Request.appointmentData (Client.Book.mutationFn services data))
      = Some (Some (Client.calculateEndTime (Client.Book.time data)
                      (Client.durationOr60
                         (Client.selectedService services
                            (Client.Book.serviceId data))))))
  /\
  (forall services data,
      option_map AppointmentData.endTime
        (Request.appointmentData (Client.Dashboard.mutationFn services data))
      = Some (Some (Client.calculateEndTime (Client.Dashboard.time data)
                      (Client.durationOr60
                         (Client.selectedService services
                            (Client.Dashboard.serviceId data)))))).
Proof.
  split; [|split; [reflexivity|split; reflexivity]].
  intros s d t _ Ht Hge.
  exists ((t + d) / 60), ((t + d) mod 60).
  rewrite (calculateEndTime_eq s d t Ht), components_formatTime.
  split; [reflexivity|].
  split; [apply Nat.div_le_lower_bound; lia|].
  split; [apply Nat.mod_upper_bound; discriminate|].
  pose proof (Nat.div_mod (t + d) 60). lia.
Qed.

Lemma calculateEndTime_no_wrap_around_witness :
  exists endHours endMins,
    map Js.Number (Js.split ":" (Client.calculateEndTime "23:30" 60))
    = [Some endHours; Some endMins] /\
    24 <= endHours /\ endMins < 60 /\
    endHours * 60 + endMins = 1410 + 60.
Proof.
  apply (proj1 calculateEndTime_no_wrap_around "23:30" 60 1410).
  - reflexivity.
  - reflexivity.
  - apply Nat.leb_le. reflexivity.
Defined.

(* ===================================================================== *)
(** ** Customer resolution *)
(* ===================================================================== *)

Section Resolution.

Import Js Server.

Lemma selectFirst_none {A} (p : A -> bool) (l : list A) :
  selectFirst p l = None <-> forall x, In x l -> p x = false.
Proof.
  unfold selectFirst. induction l as [|a l IH]; simpl.
  - split; [intros _ x []|reflexivity].
  - destruct (p a) eqn:E; simpl.
    + split; [discriminate|]. intros H.
      rewrite (H a (or_introl eq_refl)) in E. discriminate.
    + rewrite IH. split.
      * intros H x [<-|Hx]; auto.
      * intros H x Hx. apply H. now right.
Qed.

Lemma selectFirst_some {A} (p : A -> bool) (l : list A) (c : A) :
  selectFirst p l = Some c -> In c l /\ p c = true.
Proof.
  unfold selectFirst. induction l as [|a l IH]; simpl; [discriminate|].
  destruct (p a) eqn:E; simpl.
  - intros [= <-]. auto.
  - intros H. destruct (IH H). auto.
Qed.

Lemma selectFirst_exists {A} (p : A -> bool) (l : list A) (x : A) :
  In x l -> p x = true -> exists c, selectFirst p l = Some c.
Proof.
  intros Hx Hp. destruct (selectFirst p l) as [c|] eqn:E; [eauto|].
  rewrite selectFirst_none in E. rewrite (E x Hx) in Hp. discriminate.
Qed.

(** A row appended to a table in which nothing matched is the first
    match when it matches itself. *)
Lemma selectFirst_app_new {A} (p : A -> bool) (l : list A) (x : A) :
  selectFirst p l = None -> p x = true -> selectFirst p (l ++ [x]) = Some x.
Proof.
  unfold selectFirst. intros H Hp. rewrite filter_app. simpl. rewrite Hp.
  destruct (filter p l); [reflexivity|discriminate].
Qed.

Lemma eqText_refl (v : option string) :
  truthy v = true -> eqText v v = true.
Proof. destruct v; simpl; [intros _; apply String.eqb_refl|discriminate]. Qed.

(** The block unfolded: one of three outcomes. *)
Lemma findOrCreateCustomer_unfold b cd s :
  findOrCreateCustomer b cd s =
  match getCustomerByContact s b (CustomerData.email cd) (CustomerData.phone cd) with
  | Some c => (Ok c, s)
  | None =>
      match Schema.insertCustomerSchema_parse cd with
      | Some v => createCustomer v b s
      | None => (Throw ZodError, s)
      end
  end.
Proof.
  unfold findOrCreateCustomer, bind, gets. simpl.
  destruct (getCustomerByContact s b _ _); [reflexivity|].
  destruct (Schema.insertCustomerSchema_parse cd); simpl.
  - destruct (createCustomer t b s) as [[c|e] s']; reflexivity.
  - reflexivity.
Qed.

(** What a successful resolution leaves behind. *)
Lemma findOrCreateCustomer_ok b cd s c s' :
  findOrCreateCustomer b cd s = (Ok c, s') ->
  In c (customers s') /\
  businesses s' = businesses s /\ services s' = services s /\
  staff s' = staff s /\ appointments s' = appointments s /\
  appointmentsSeq s' = appointmentsSeq s /\
  (s' = s \/ customers s' = (customers s ++ [c])%list).
Proof.
  rewrite findOrCreateCustomer_unfold.
  destruct (getCustomerByContact s b _ _) as [c0|] eqn:G.
  - intros [= <- <-]. repeat split; auto.
    unfold getCustomerByContact in G.
    destruct (truthy (CustomerData.email cd)).
    + destruct (selectFirst (matchesEmail b _) (customers s)) as [c1|] eqn:E.
      * injection G as <-. now apply selectFirst_some in E.
      * destruct (truthy (CustomerData.phone cd)); [|discriminate].
        now apply selectFirst_some in G.
    + destruct (truthy (CustomerData.phone cd)); [|discriminate].
      now apply selectFirst_some in G.
  - destruct (Schema.insertCustomerSchema_parse cd) as [v|]; [|discriminate].
    unfold createCustomer. destruct (hasBusiness s b); [|discriminate].
    intros [= <- <-]. simpl. repeat split; auto.
    apply in_or_app. right. now left.
Qed.

End Resolution.

(** C9.  The contact lookup called with neither an email nor a phone (each
    absent or empty) answers [undefined] whatever the tables hold: the
    answer does not depend on the store, and as a step of the handler the
    lookup leaves the store as it was. *)
Theorem getCustomerByContact_without_contact :
  forall (s : Server.Store) (businessId : nat) (email phone : option string),
    Js.truthy email = false ->
    Js.truthy phone = false ->
    Server.getCustomerByContact s businessId email phone = None /\
    Server.gets (fun st => Server.getCustomerByContact st businessId email phone) s
    = (Server.Ok None, s).
Proof.
  intros s b email phone He Hp.
  unfold Server.gets, Server.getCustomerByContact. rewrite He, Hp. auto.
Qed.

Lemma getCustomerByContact_without_contact_witness :
  Server.getCustomerByContact Scenario.booked 1 None (Some "") = None /\
  Server.gets (fun st => Server.getCustomerByContact st 1 None (Some ""))
    Scenario.booked
  = (Server.Ok None, Scenario.booked).
Proof.
  apply (getCustomerByContact_without_contact Scenario.booked 1 None (Some "")).
  - reflexivity.
  - reflexivity.
Defined.

(** C5, counterexample.  A customer of business 1 is stored with the
    empty string as email; resolving an input whose email is that same
    empty string does not return this customer but inserts a second
    row. *)
Lemma empty_email_match_creates_row :
  In Scenario.blank (Server.customers Scenario.shopWithBlank) /\
  Server.matchesEmail 1 (CustomerData.email (Scenario.emptyEmail "Bea"))
    Scenario.blank = true /\
  Server.findOrCreateCustomer 1 (Scenario.emptyEmail "Bea") Scenario.shopWithBlank
  = (Server.Ok (Customer.mk 2 1 "Bea" (Some "") None None),
     Server.mkStore [Business.mk 1 "B"] [Service.mk 1 1 "Cut" 30]
       [Staff.mk 1 1 "S"]
       [Scenario.blank; Customer.mk 2 1 "Bea" (Some "") None None] [] 3 1).
Proof. repeat split. now left. Qed.

(** C5, amended.  Customer resolution looks up by email only when the
    email is a non-empty string and by phone only when the phone is a
    non-empty string.  (1) With a non-empty email that an existing customer
    of the business has exactly, the first such customer is returned and
    nothing is written.  (2) With no email match and a non-empty phone that
    an existing customer of the business has exactly, the first such
    customer is returned and nothing is written.  (3) A customer row is
    created only if neither lookup matched, and it carries the supplied
    fields.  (4) An input with a phone only resolves to the existing
    customer of the business with that phone and creates no row. *)
Theorem findOrCreateCustomer_algorithm :
  forall (s : Server.Store) (businessId : nat) (cd : CustomerData.t),
    let email := CustomerData.email cd in
    let phone := CustomerData.phone cd in
    (Js.truthy email = true ->
     forall c0, In c0 (Server.customers s) ->
       Server.matchesEmail businessId email c0 = true ->
       exists c,
         Server.findOrCreateCustomer businessId cd s = (Server.Ok c, s) /\
         Server.selectFirst (Server.matchesEmail businessId email)
           (Server.customers s) = Some c /\
         In c (Server.customers s) /\
         Server.matchesEmail businessId email c = true)
    /\
    ((Js.truthy email = false \/
      forall c, In c (Server.customers s) ->
        Server.matchesEmail businessId email c = false) ->
     Js.truthy phone = true ->
     forall c0, In c0 (Server.customers s) ->
       Server.matchesPhone businessId phone c0 = true ->
       exists c,
         Server.findOrCreateCustomer businessId cd s = (Server.Ok c, s) /\
         Server.selectFirst (Server.matchesPhone businessId phone)
           (Server.customers s) = Some c /\
         In c (Server.customers s) /\
         Server.matchesPhone businessId phone c = true)
    /\
    (forall r s',
       Server.findOrCreateCustomer businessId cd s = (r, s') ->
       Server.customers s' <> Server.customers s ->
       (Js.truthy email = false \/
        forall c, In c (Server.customers s) ->
          Server.matchesEmail businessId email c = false) /\
       (Js.truthy phone = false \/
        forall c, In c (Server.customers s) ->
          Server.matchesPhone businessId phone c = false) /\
       exists c,
         r = Server.Ok c /\
         Server.customers s' = (Server.customers s ++ [c])%list /\
         Customer.businessId c = businessId /\
         CustomerData.name cd = Some (Customer.name c) /\
         Customer.email c = email /\ Customer.phone c = phone)
    /\
    (email = None ->
     forall p c0, phone = Some p -> p <> "" ->
       In c0 (Server.customers s) ->
       Customer.businessId c0 = businessId ->
       Customer.phone c0 = Some p ->
       exists c,
         Server.findOrCreateCustomer businessId cd s = (Server.Ok c, s) /\
         In c (Server.customers s) /\
         Customer.businessId c = businessId /\
         Customer.phone c = Some p).
Proof.
  intros s b cd email phone.
  assert (P2 :
    (Js.truthy email = false \/
      forall c, In c (Server.customers s) ->
        Server.matchesEmail b email c = false) ->
     Js.truthy phone = true ->
     forall c0, In c0 (Server.customers s) ->
       Server.matchesPhone b phone c0 = true ->
       exists c,
         Server.findOrCreateCustomer b cd s = (Server.Ok c, s) /\
         Server.selectFirst (Server.matchesPhone b phone)
           (Server.customers s) = Some c /\
         In c (Server.customers s) /\
         Server.matchesPhone b phone c = true).
  { intros Hno Hp c0 Hin Hm.
    destruct (selectFirst_exists _ _ c0 Hin Hm) as [c Hc].
    exists c. rewrite findOrCreateCustomer_unfold.
    unfold Server.getCustomerByContact. fold email. fold phone.
    assert (E : (if Js.truthy email
                 then Server.selectFirst (Server.matchesEmail b email)
                        (Server.customers s)
                 else None) = None).
    { destruct Hno as [-> | Hno]; [reflexivity|].
      destruct (Js.truthy email); [|reflexivity].
      now apply selectFirst_none. }
    rewrite E, Hp, Hc.
    destruct (selectFirst_some _ _ _ Hc). auto. }
  split; [|split; [exact P2|split]].
  - intros He c0 Hin Hm.
    destruct (selectFirst_exists _ _ c0 Hin Hm) as [c Hc].
    exists c. rewrite findOrCreateCustomer_unfold.
    unfold Server.getCustomerByContact. fold email. rewrite He, Hc.
    destruct (selectFirst_some _ _ _ Hc). auto.
  - intros r s' Hrun Hchg. rewrite findOrCreateCustomer_unfold in Hrun.
    destruct (Server.getCustomerByContact s b (CustomerData.email cd)
                (CustomerData.phone cd)) as [c0|] eqn:G.
    { injection Hrun as <- <-. now elim Hchg. }
    unfold Server.getCustomerByContact in G. fold email in G. fold phone in G.
    assert (Ge : Js.truthy email = false \/
                 forall c, In c (Server.customers s) ->
                   Server.matchesEmail b email c = false).
    { destruct (Js.truthy email); [right|now left].
      apply selectFirst_none.
      destruct (Server.selectFirst (Server.matchesEmail b email) _);
        [discriminate|reflexivity]. }
    assert (Gp : Js.truthy phone = false \/
                 forall c, In c (Server.customers s) ->
                   Server.matchesPhone b phone c = false).
    { destruct (Js.truthy phone); [right|now left].
      apply selectFirst_none.
      destruct (if Js.truthy email then _ else _); [discriminate|exact G]. }
    split; [exact Ge|]. split; [exact Gp|].
    unfold Schema.insertCustomerSchema_parse in Hrun.
    destruct (CustomerData.name cd) as [n|] eqn:N.
    + unfold Server.createCustomer in Hrun.
      destruct (Server.hasBusiness s b).
      * injection Hrun as <- <-. simpl. eexists. repeat split.
      * injection Hrun as <- <-. now elim Hchg.
    + injection Hrun as <- <-. now elim Hchg.
  - intros He p c0 Hp Hne Hin Hb Hph.
    assert (T : Js.truthy phone = true).
    { rewrite Hp. simpl. destruct (String.eqb_spec p ""); [contradiction|reflexivity]. }
    assert (Hm : Server.matchesPhone b phone c0 = true).
    { unfold Server.matchesPhone. rewrite Hb, Nat.eqb_refl, Hph, Hp. simpl.
      apply String.eqb_refl. }
    destruct (P2 (or_introl (f_equal Js.truthy He)) T c0 Hin Hm)
      as [c [R [_ [I M]]]].
    exists c. split; [exact R|]. split; [exact I|].
    unfold Server.matchesPhone in M. apply andb_true_iff in M as [M1 M2].
    apply Nat.eqb_eq in M1. split; [exact M1|].
    rewrite Hp in M2. destruct (Customer.phone c) as [q|]; [|discriminate].
    simpl in M2. apply String.eqb_eq in M2. now subst q.
Qed.

Lemma findOrCreateCustomer_algorithm_witness :
  exists c,
    Server.findOrCreateCustomer 1
      (CustomerData.mk (Some "Ann B.") None (Some "555-0100") None)
      Scenario.booked = (Server.Ok c, Scenario.booked) /\
    In c (Server.customers Scenario.booked) /\
    Customer.businessId c = 1 /\
    Customer.phone c = Some "555-0100".
Proof.
  apply (proj2 (proj2 (proj2
           (findOrCreateCustomer_algorithm Scenario.booked 1
              (CustomerData.mk (Some "Ann B.") None (Some "555-0100") None))))
           eq_refl "555-0100" Scenario.ann eq_refl).
  - discriminate.
  - left. reflexivity.
  - reflexivity.
  - reflexivity.
Defined.

(** Resolution run twice with the same input: as soon as the input carries
    a non-empty email or a non-empty phone, the second run finds what the
    first one returned. *)
Lemma findOrCreateCustomer_again b cd s c1 s1 :
  Js.truthy (CustomerData.email cd) || Js.truthy (CustomerData.phone cd) = true ->
  Server.findOrCreateCustomer b cd s = (Server.Ok c1, s1) ->
  Server.findOrCreateCustomer b cd s1 = (Server.Ok c1, s1).
Proof.
  intros Hc Hrun. pose proof Hrun as Hrun0.
  rewrite findOrCreateCustomer_unfold in Hrun.
  destruct (Server.getCustomerByContact s b (CustomerData.email cd)
              (CustomerData.phone cd)) as [c0|] eqn:G.
  { injection Hrun as <- <-. exact Hrun0. }
  unfold Schema.insertCustomerSchema_parse in Hrun.
  destruct (CustomerData.name cd) as [n|]; [|discriminate].
  unfold Server.createCustomer in Hrun.
  destruct (Server.hasBusiness s b); [|discriminate].
  injection Hrun as <- <-. simpl InsertCustomer.name. simpl InsertCustomer.email.
  simpl InsertCustomer.phone. simpl InsertCustomer.notes.
  rewrite findOrCreateCustomer_unfold.
  set (new := Customer.mk (Server.customersSeq s) b n (CustomerData.email cd)
                (CustomerData.phone cd) (CustomerData.notes cd)).
  assert (R : Server.getCustomerByContact
                (Server.mkStore (Server.businesses s) (Server.services s)
                   (Server.staff s) (Server.customers s ++ [new])
                   (Server.appointments s) (S (Server.customersSeq s))
                   (Server.appointmentsSeq s))
                b (CustomerData.email cd) (CustomerData.phone cd) = Some new);
    [|now rewrite R].
  unfold Server.getCustomerByContact in *. simpl Server.customers.
  destruct (Js.truthy (CustomerData.email cd)) eqn:Te.
  - destruct (Server.selectFirst (Server.matchesEmail b (CustomerData.email cd))
                (Server.customers s)) eqn:E; [discriminate|].
    rewrite (selectFirst_app_new _ _ new E); [reflexivity|].
    unfold Server.matchesEmail, new. simpl.
    now rewrite Nat.eqb_refl, (eqText_refl _ Te).
  - simpl in Hc. rewrite Hc in *.
    rewrite (selectFirst_app_new _ _ new G); [reflexivity|].
    unfold Server.matchesPhone, new. simpl.
    now rewrite Nat.eqb_refl, (eqText_refl _ Hc).
Qed.

(** C6, counterexample.  With the empty string as email and no phone the
    first run creates customer 1 and the second run, on the store the first
    one left, creates customer 2: two ids, two rows. *)
Lemma resolve_twice_empty_email :
  Server.findOrCreateCustomer 1 (Scenario.emptyEmail "Ann") Scenario.shop
  = (Server.Ok (Customer.mk 1 1 "Ann" (Some "") None None),
     Scenario.shopWithBlank) /\
  Server.findOrCreateCustomer 1 (Scenario.emptyEmail "Ann") Scenario.shopWithBlank
  = (Server.Ok (Customer.mk 2 1 "Ann" (Some "") None None),
     Server.mkStore [Business.mk 1 "B"] [Service.mk 1 1 "Cut" 30]
       [Staff.mk 1 1 "S"]
       [Scenario.blank; Customer.mk 2 1 "Ann" (Some "") None None] [] 3 1).
Proof. split; reflexivity. Qed.

(** C6, amended.  Customer resolution is idempotent for every businessId
    and every non-empty email: when a first run returns a customer
    (possibly creating it), a second run with the same input on the store
    the first one left returns the same customer and leaves that store
    unchanged, so it inserts no row. *)
Theorem findOrCreateCustomer_idempotent :
  forall (s s1 : Server.Store) (businessId : nat) (cd : CustomerData.t)
         (c1 : Customer.t),
    Js.truthy (CustomerData.email cd) = true ->
    Server.findOrCreateCustomer businessId cd s = (Server.Ok c1, s1) ->
    Server.findOrCreateCustomer businessId cd s1 = (Server.Ok c1, s1).
Proof.
  intros s s1 b cd c1 He Hrun.
  apply (findOrCreateCustomer_again b cd s c1 s1); [|exact Hrun].
  now rewrite He.
Qed.

Lemma findOrCreateCustomer_idempotent_witness :
  Server.findOrCreateCustomer 1 Scenario.bob
    (Server.mkStore [Business.mk 1 "B"] [Service.mk 1 1 "Cut" 30]
       [Staff.mk 1 1 "S"]
       [Customer.mk 1 1 "Bob" (Some "bob@example.com") None None] [] 2 1)
  = (Server.Ok (Customer.mk 1 1 "Bob" (Some "bob@example.com") None None),
     Server.mkStore [Business.mk 1 "B"] [Service.mk 1 1 "Cut" 30]
       [Staff.mk 1 1 "S"]
       [Customer.mk 1 1 "Bob" (Some "bob@example.com") None None] [] 2 1).
Proof.
  apply (findOrCreateCustomer_idempotent Scenario.shop _ 1 Scenario.bob).
  - reflexivity.
  - reflexivity.
Defined.




(* ===================================================================== *)
(** ** The public booking handler *)
(* ===================================================================== *)

Section Booking.

Import Js Server.

(** The handler unfolded into its steps. *)
Lemma bookAppointment_unfold b body s :
  bookAppointment b body s =
  match Request.customerData body with
  | None => (Throw TypeError, s)
  | Some cd =>
      match findOrCreateCustomer b cd s with
      | (Throw e, s1) => (Throw e, s1)
      | (Ok c, s1) =>
          match parseAppointment body with
          | None => (Throw ZodError, s1)
          | Some va =>
              match createAppointment (withCustomerId va (Customer.id c)) b s1 with
              | (Ok a, s2) => (Ok (a, c), s2)
              | (Throw e, s2) => (Throw e, s2)
              end
          end
      end
  end.
Proof.
  unfold bookAppointment.
  destruct (Request.customerData body) as [cd|]; [|reflexivity].
  unfold bind at 1.
  destruct (findOrCreateCustomer b cd s) as [[c|e] s1]; [|reflexivity].
  unfold bind at 1.
  destruct (parseAppointment body) as [va|]; simpl; [|reflexivity].
  unfold bind.
  destruct (createAppointment _ b s1) as [[a|e] s2]; reflexivity.
Qed.

Lemma hasCustomer_In (s : Store) (c : Customer.t) :
  In c (customers s) -> hasCustomer s (Customer.id c) = true.
Proof.
  intros H. unfold hasCustomer. apply existsb_exists.
  exists c. split; [exact H|apply Nat.eqb_refl].
Qed.

(** Failed or not, the customer step only ever appends to [customers]. *)
Lemma findOrCreateCustomer_tables b cd s r s1 :
  findOrCreateCustomer b cd s = (r, s1) ->
  appointments s1 = appointments s /\
  (customers s1 = customers s \/
   exists c, r = Ok c /\ customers s1 = (customers s ++ [c])%list).
Proof.
  rewrite findOrCreateCustomer_unfold.
  destruct (getCustomerByContact s b _ _).
  - intros [= <- <-]. auto.
  - destruct (Schema.insertCustomerSchema_parse cd) as [v|].
    + unfold createCustomer. destruct (hasBusiness s b);
        intros [= <- <-]; simpl; eauto.
    + intros [= <- <-]. auto.
Qed.

Lemma createAppointment_tables va b s r s2 :
  createAppointment va b s = (r, s2) ->
  customers s2 = customers s /\
  match r with
  | Ok a => appointments s2 = (appointments s ++ [a])%list /\
            Appointment.customerId a = InsertAppointment.customerId va /\
            Appointment.staffId a = InsertAppointment.staffId va /\
            Appointment.date a = InsertAppointment.date va /\
            Appointment.startTime a = InsertAppointment.startTime va /\
            Appointment.endTime a = InsertAppointment.endTime va /\
            Appointment.status a = statusOrDefault (InsertAppointment.status va)
  | Throw _ => appointments s2 = appointments s
  end.
Proof.
  unfold createAppointment.
  destruct (negb _); [intros [= <- <-]; split; reflexivity|].
  destruct (negb _); [intros [= <- <-]; split; reflexivity|].
  destruct (existsb _ (appointments s));
    [intros [= <- <-]; split; reflexivity|].
  destruct (_ && _); intros [= <- <-]; simpl; repeat split.
Qed.

(** What a successful [insertAppointmentSchema.parse] says about the data
    it was given. *)
Lemma insertAppointmentSchema_parse_some ad va :
  Schema.insertAppointmentSchema_parse ad = Some va ->
  AppointmentData.customerId ad = Some (InsertAppointment.customerId va) /\
  AppointmentData.serviceId ad = Some (InsertAppointment.serviceId va) /\
  AppointmentData.staffId ad = Some (InsertAppointment.staffId va) /\
  AppointmentData.date ad = Some (InsertAppointment.date va) /\
  AppointmentData.startTime ad = Some (InsertAppointment.startTime va) /\
  AppointmentData.endTime ad = Some (InsertAppointment.endTime va) /\
  InsertAppointment.status va = AppointmentData.status ad /\
  InsertAppointment.notes va = AppointmentData.notes ad.
Proof.
  unfold Schema.insertAppointmentSchema_parse.
  destruct (AppointmentData.customerId ad), (AppointmentData.serviceId ad),
    (AppointmentData.staffId ad), (AppointmentData.date ad),
    (AppointmentData.startTime ad), (AppointmentData.endTime ad);
    try discriminate.
  destruct (_ && _); [|discriminate].
  intros [= <-]. repeat split.
Qed.

End Booking.

(** C1, counterexample.  Staff 1 has a confirmed appointment on 2024-01-10
    from 10:00 to 10:30.  A request for the same staff member and date from
    10:15 to 10:45 overlaps it under half-open semantics, and the handler
    answers with the new appointment: both rows are in the table
    afterwards. *)
Lemma overlapping_booking_succeeds :
  Spec.overlaps (Appointment.startTime Scenario.existing)
    (Appointment.endTime Scenario.existing) "10:15" "10:45" = true /\
  Server.bookAppointment 1 (Scenario.requestFor "10:15" "10:45") Scenario.booked
  = (Server.Ok
       (Appointment.mk 2 1 2 1 1 "2024-01-10" "10:15" "10:45" "pending" None,
        Customer.mk 2 1 "Bob" (Some "bob@example.com") None None),
     Server.mkStore [Business.mk 1 "B"] [Service.mk 1 1 "Cut" 30]
       [Staff.mk 1 1 "S"]
       [Scenario.ann; Customer.mk 2 1 "Bob" (Some "bob@example.com") None None]
       [Scenario.existing;
        Appointment.mk 2 1 2 1 1 "2024-01-10" "10:15" "10:45" "pending" None]
       3 3).
Proof. split; reflexivity. Qed.

(** Neither step of the handler reads the appointments table, apart
    from the key of the new row. *)
Lemma findOrCreateCustomer_withAppointments b cd s rows :
  Server.findOrCreateCustomer b cd (Storage.withAppointments s rows)
  = (fst (Server.findOrCreateCustomer b cd s),
     Storage.withAppointments (snd (Server.findOrCreateCustomer b cd s)) rows)
  /\ Server.appointments (snd (Server.findOrCreateCustomer b cd s))
     = Server.appointments s
  /\ Server.appointmentsSeq (snd (Server.findOrCreateCustomer b cd s))
     = Server.appointmentsSeq s.
Proof.
  rewrite !findOrCreateCustomer_unfold.
  change (Server.getCustomerByContact (Storage.withAppointments s rows) b
            (CustomerData.email cd) (CustomerData.phone cd))
    with (Server.getCustomerByContact s b (CustomerData.email cd)
            (CustomerData.phone cd)).
  destruct (Server.getCustomerByContact s b _ _); [repeat split|].
  destruct (Schema.insertCustomerSchema_parse cd) as [v|]; [|repeat split].
  unfold Server.createCustomer.
  change (Server.hasBusiness (Storage.withAppointments s rows) b)
    with (Server.hasBusiness s b).
  destruct (Server.hasBusiness s b); repeat split.
Qed.

Lemma existsb_key_below {A} (key : A -> nat) (l : list A) (bound : nat) :
  (forall x, In x l -> key x < bound) ->
  existsb (fun x => key x =? bound) l = false.
Proof.
  intros H. destruct (existsb _ l) eqn:E; [|reflexivity].
  apply existsb_exists in E as [x [Hx E]]. apply Nat.eqb_eq in E.
  specialize (H x Hx). lia.
Qed.

Lemma createAppointment_withAppointments va b s rows :
  (forall a, In a (Server.appointments s) ->
     Appointment.id a < Server.appointmentsSeq s) ->
  (forall a, In a rows -> Appointment.id a < Server.appointmentsSeq s) ->
  exists added,
    Server.appointments (snd (Server.createAppointment va b s))
    = (Server.appointments s ++ added)%list /\
    Server.createAppointment va b (Storage.withAppointments s rows)
    = (fst (Server.createAppointment va b s),
       Storage.withAppointments (snd (Server.createAppointment va b s))
         (rows ++ added)) /\
    match fst (Server.createAppointment va b s) with
    | Server.Ok a => added = [a]
    | Server.Throw _ => added = []
    end.
Proof.
  intros Hs Hrows. unfold Server.createAppointment.
  change (Server.appointments (Storage.withAppointments s rows)) with rows.
  change (Server.appointmentsSeq (Storage.withAppointments s rows))
    with (Server.appointmentsSeq s).
  change (Server.hasBusiness (Storage.withAppointments s rows))
    with (Server.hasBusiness s).
  change (Server.hasCustomer (Storage.withAppointments s rows))
    with (Server.hasCustomer s).
  change (Server.hasService (Storage.withAppointments s rows))
    with (Server.hasService s).
  change (Server.hasStaff (Storage.withAppointments s rows))
    with (Server.hasStaff s).
  rewrite (existsb_key_below Appointment.id _ _ Hs),
    (existsb_key_below Appointment.id _ _ Hrows).
  destruct (negb _).
  { exists []. simpl. rewrite !app_nil_r. destruct s; repeat split. }
  destruct (negb _).
  { exists []. simpl. rewrite !app_nil_r. destruct s; repeat split. }
  destruct (_ && _).
  - eexists. simpl. repeat split.
  - exists []. simpl. rewrite !app_nil_r. repeat split.
Qed.

(** C1, amended.  The public booking handler makes no overlap check and
    never answers with a conflict: its answer does not depend on the
    appointments that are stored.  For every request and store (ids below
    the sequence, as the sequence hands them out), the handler gives the
    same answer, the same appointment and customer or the same error, when
    the appointments of the store are replaced by any other rows, and on
    success it appends the new row to whatever rows there are.  In
    particular, with an existing confirmed appointment 10:00-10:30, the
    back-to-back booking 10:30-11:00 succeeds, and so does the overlapping
    booking 10:15-10:45. *)
Theorem bookAppointment_ignores_existing_appointments :
  (forall (businessId : nat) (reqBody : Request.t) (s s' : Server.Store)
          (rows : list Appointment.t)
          (r : Server.result (Appointment.t * Customer.t)),
      (forall a, In a (Server.appointments s) ->
         Appointment.id a < Server.appointmentsSeq s) ->
      (forall a, In a rows -> Appointment.id a < Server.appointmentsSeq s) ->
      Server.bookAppointment businessId reqBody s = (r, s') ->
      exists added,
        Server.appointments s' = (Server.appointments s ++ added)%list /\
        Server.bookAppointment businessId reqBody
          (Storage.withAppointments s rows)
        = (r, Storage.withAppointments s' (rows ++ added)) /\
        match r with
        | Server.Ok (a, _) => added = [a]
        | Server.Throw _ => added = []
        end)
  /\
  (exists a c s2,
      Server.bookAppointment 1 (Scenario.requestFor "10:30" "11:00") Scenario.booked
      = (Server.Ok (a, c), s2) /\
      Server.appointments s2 = [Scenario.existing; a] /\
      Appointment.startTime a = "10:30" /\ Appointment.endTime a = "11:00")
  /\
  (exists a c s2,
      Server.bookAppointment 1 (Scenario.requestFor "10:15" "10:45") Scenario.booked
      = (Server.Ok (a, c), s2) /\
      Server.appointments s2 = [Scenario.existing; a] /\
      Appointment.startTime a = "10:15" /\ Appointment.endTime a = "10:45").
Proof.
  split; [|split; do 3 eexists; repeat split].
  intros b body s s' rows r Hs Hrows. rewrite !bookAppointment_unfold.
  change (Request.customerData body) with (Request.customerData body).
  destruct (Request.customerData body) as [cd|].
  2:{ intros [= <- <-]. exists []. rewrite !app_nil_r.
      destruct s; repeat split. }
  destruct (findOrCreateCustomer_withAppointments b cd s rows)
    as [Ew [Eap Eseq]].
  rewrite Ew.
  destruct (Server.findOrCreateCustomer b cd s) as [[c|e] s1];
    simpl in Eap, Eseq |- *.
  2:{ intros [= <- <-]. exists []. rewrite !app_nil_r, Eap.
      repeat split. }
  destruct (Server.parseAppointment body) as [va|].
  2:{ intros [= <- <-]. exists []. rewrite !app_nil_r, Eap.
      repeat split. }
  rewrite <- Eap, <- Eseq in Hs. rewrite <- Eseq in Hrows.
  destruct (createAppointment_withAppointments
              (Server.withCustomerId va (Customer.id c)) b s1 rows Hs Hrows)
    as [added [Ea [Er Em]]].
  rewrite Er.
  destruct (Server.createAppointment _ b s1) as [[a|e] s2];
    simpl in Ea, Em |- *; intros [= <- <-]; exists added;
    rewrite Ea, Eap; repeat split; exact Em.
Qed.

Lemma bookAppointment_ignores_existing_appointments_witness :
  exists added,
    Server.appointments
      (Server.mkStore [Business.mk 1 "B"] [Service.mk 1 1 "Cut" 30]
         [Staff.mk 1 1 "S"]
         [Scenario.ann; Customer.mk 2 1 "Bob" (Some "bob@example.com") None None]
         [Scenario.existing;
          Appointment.mk 2 1 2 1 1 "2024-01-10" "10:15" "10:45" "pending" None]
         3 3)
    = (Server.appointments Scenario.booked ++ added)%list /\
    Server.bookAppointment 1 (Scenario.requestFor "10:15" "10:45")
      (Storage.withAppointments Scenario.booked [])
    = (Server.Ok
         (Appointment.mk 2 1 2 1 1 "2024-01-10" "10:15" "10:45" "pending" None,
          Customer.mk 2 1 "Bob" (Some "bob@example.com") None None),
       Storage.withAppointments
         (Server.mkStore [Business.mk 1 "B"] [Service.mk 1 1 "Cut" 30]
            [Staff.mk 1 1 "S"]
            [Scenario.ann;
             Customer.mk 2 1 "Bob" (Some "bob@example.com") None None]
            [Scenario.existing;
             Appointment.mk 2 1 2 1 1 "2024-01-10" "10:15" "10:45" "pending"
               None]
            3 3)
         ([] ++ added)) /\
    added
    = [Appointment.mk 2 1 2 1 1 "2024-01-10" "10:15" "10:45" "pending" None].
Proof.
  apply (proj1 bookAppointment_ignores_existing_appointments 1
           (Scenario.requestFor "10:15" "10:45") Scenario.booked _ []
           (Server.Ok
              (Appointment.mk 2 1 2 1 1 "2024-01-10" "10:15" "10:45" "pending"
                 None,
               Customer.mk 2 1 "Bob" (Some "bob@example.com") None None))).
  - intros a [<-|[]]. apply Nat.lt_succ_diag_r.
  - intros a [].
  - reflexivity.
Defined.

(** No page sends a [customerId], which the appointment schema requires:
    a request as a page builds it never gets past
    [insertAppointmentSchema.parse]. *)
Lemma page_requests_fail_appointment_schema :
  forall services,
    (forall data, Server.parseAppointment
                    (Client.BookingPage.mutationFn services data) = None) /\
    (forall data, Server.parseAppointment
                    (Client.Book.mutationFn services data) = None) /\
    (forall data, Server.parseAppointment
                    (Client.Dashboard.mutationFn services data) = None).
Proof. intros services. repeat split. Qed.

(** C2, counterexample.  A first-time visitor books through the public
    booking page.  The handler creates the customer, then the appointment
    data fail the schema: the response is an error, the new customer row
    stays and there is no appointment row.  The same happens when the
    appointment data pass the schema but name a service that does not
    exist, so that the insert is refused. *)
Lemma failed_booking_keeps_new_customer :
  Server.bookAppointment 1
    (Client.BookingPage.mutationFn (Server.services Scenario.shop) Scenario.visit)
    Scenario.shop
  = (Server.Throw Server.ZodError,
     Server.mkStore [Business.mk 1 "B"] [Service.mk 1 1 "Cut" 30]
       [Staff.mk 1 1 "S"]
       [Customer.mk 1 1 "Bob" (Some "bob@example.com") (Some "555-0199") None]
       [] 2 1) /\
  Server.bookAppointment 1 Scenario.unknownService Scenario.shop
  = (Server.Throw Server.ForeignKeyViolation,
     Server.mkStore [Business.mk 1 "B"] [Service.mk 1 1 "Cut" 30]
       [Staff.mk 1 1 "S"]
       [Customer.mk 1 1 "Bob" (Some "bob@example.com") None None]
       [] 2 2).
Proof. split; reflexivity. Qed.

(** C2, amended.  The customer write and the appointment write are
    independent.  A booking that succeeds appends its appointment row, and
    that row references the returned customer, whose row is in the store
    (found there or appended by this call).  A booking that fails appends
    no appointment row.  When the customer step of the call created a
    customer row, every failure of the appointment step, be it the schema
    rejecting the appointment data or the insert being refused, is the
    answer of the call, and the store it leaves holds the new customer row
    and no new appointment row. *)
Theorem bookAppointment_not_atomic :
  (forall (businessId : nat) (body : Request.t) (s s' : Server.Store)
          (r : Server.result (Appointment.t * Customer.t)),
      Server.bookAppointment businessId body s = (r, s') ->
      match r with
      | Server.Ok (a, c) =>
          Server.appointments s' = (Server.appointments s ++ [a])%list /\
          Appointment.customerId a = Customer.id c /\
          In c (Server.customers s') /\
          (Server.customers s' = Server.customers s \/
           Server.customers s' = (Server.customers s ++ [c])%list)
      | Server.Throw _ =>
          Server.appointments s' = Server.appointments s /\
          (Server.customers s' = Server.customers s \/
           exists c, Server.customers s' = (Server.customers s ++ [c])%list)
      end)
  /\
  (forall (businessId : nat) (body : Request.t) (s s1 : Server.Store)
          (cd : CustomerData.t) (c : Customer.t),
      Request.customerData body = Some cd ->
      Server.findOrCreateCustomer businessId cd s = (Server.Ok c, s1) ->
      Server.customers s1 = (Server.customers s ++ [c])%list ->
      (Server.parseAppointment body = None ->
       Server.bookAppointment businessId body s
       = (Server.Throw Server.ZodError, s1))
      /\
      (forall (va : InsertAppointment.t) (e : Server.error) (s2 : Server.Store),
          Server.parseAppointment body = Some va ->
          Server.createAppointment
            (Server.withCustomerId va (Customer.id c)) businessId s1
          = (Server.Throw e, s2) ->
          Server.bookAppointment businessId body s = (Server.Throw e, s2))
      /\
      (forall (e : Server.error) (s' : Server.Store),
          Server.bookAppointment businessId body s = (Server.Throw e, s') ->
          Server.customers s' = (Server.customers s ++ [c])%list /\
          Server.appointments s' = Server.appointments s)).
Proof.
  split.
  - intros b body s s' r. rewrite bookAppointment_unfold.
    destruct (Request.customerData body) as [cd|].
    2:{ intros [= <- <-]. auto. }
    destruct (Server.findOrCreateCustomer b cd s) as [[c|e] s1] eqn:F.
    2:{ intros [= <- <-].
        destruct (findOrCreateCustomer_tables _ _ _ _ _ F) as [A [C|[c [Hc _]]]];
          [auto|discriminate Hc]. }
    destruct (findOrCreateCustomer_tables _ _ _ _ _ F) as [A C].
    destruct (findOrCreateCustomer_ok _ _ _ _ _ F) as [Hin _].
    assert (C' : Server.customers s1 = Server.customers s \/
                 Server.customers s1 = (Server.customers s ++ [c])%list).
    { destruct C as [C|[c' [[= <-] C]]]; auto. }
    destruct (Server.parseAppointment body) as [va|].
    2:{ intros [= <- <-]. split; [exact A|].
        destruct C' as [C'|C']; [auto|right; eauto]. }
    destruct (Server.createAppointment _ b s1) as [[a|e] s2] eqn:K;
      destruct (createAppointment_tables _ _ _ _ _ K) as [Kc Ka];
      intros [= <- <-].
    + destruct Ka as [Ka [Kid _]]. rewrite Ka, A, Kc.
      repeat split; auto.
    + rewrite Ka, A, Kc. split; [reflexivity|].
      destruct C' as [C'|C']; [auto|right; eauto].
  - intros b body s s1 cd c Hcd F Hnew.
    destruct (findOrCreateCustomer_tables _ _ _ _ _ F) as [A _].
    rewrite bookAppointment_unfold, Hcd, F.
    split; [|split].
    + intros Pa. rewrite Pa. reflexivity.
    + intros va e s2 Pa K. rewrite Pa, K. reflexivity.
    + intros e s'. destruct (Server.parseAppointment body) as [va|].
      * destruct (Server.createAppointment _ b s1) as [[a|e'] s2] eqn:K;
          [discriminate|].
        destruct (createAppointment_tables _ _ _ _ _ K) as [Kc Ka].
        intros [= <- <-]. rewrite Kc, Ka. split; assumption.
      * intros [= <- <-]. split; assumption.
Qed.

Lemma bookAppointment_not_atomic_witness :
  Server.customers
    (Server.mkStore [Business.mk 1 "B"] [Service.mk 1 1 "Cut" 30]
       [Staff.mk 1 1 "S"]
       [Customer.mk 1 1 "Bob" (Some "bob@example.com") None None] [] 2 2)
  = (Server.customers Scenario.shop
     ++ [Customer.mk 1 1 "Bob" (Some "bob@example.com") None None])%list /\
  Server.appointments
    (Server.mkStore [Business.mk 1 "B"] [Service.mk 1 1 "Cut" 30]
       [Staff.mk 1 1 "S"]
       [Customer.mk 1 1 "Bob" (Some "bob@example.com") None None] [] 2 2)
  = Server.appointments Scenario.shop.
Proof.
  refine (proj2 (proj2 (proj2 bookAppointment_not_atomic 1
                          Scenario.unknownService Scenario.shop
                          (Server.mkStore [Business.mk 1 "B"]
                             [Service.mk 1 1 "Cut" 30] [Staff.mk 1 1 "S"]
                             [Customer.mk 1 1 "Bob" (Some "bob@example.com")
                                None None] [] 2 1)
                          Scenario.bob
                          (Customer.mk 1 1 "Bob" (Some "bob@example.com")
                             None None) _ _ _))
            Server.ForeignKeyViolation _ _).
  - reflexivity.
  - reflexivity.
  - reflexivity.
  - reflexivity.
Defined.

(** C8, counterexample.  The public booking page [book.tsx] asks for status
    "confirmed", not "pending", and the public route stores the status a
    request carries: the request of that page, completed with the
    [customerId] field the schema requires, is inserted as "confirmed". *)
Lemma public_booking_inserted_confirmed :
  option_map AppointmentData.status
    (Request.appointmentData
       (Client.Book.mutationFn (Server.services Scenario.shop) Scenario.visitBook))
  = Some (Some "confirmed") /\
  Server.bookAppointment 1
    (Scenario.withCustomerIdField
       (Client.Book.mutationFn (Server.services Scenario.shop) Scenario.visitBook)
       0)
    Scenario.shop
  = (Server.Ok
       (Appointment.mk 1 1 1 1 1 "2024-01-10" "10:00" "10:30" "confirmed" None,
        Customer.mk 1 1 "Bob" (Some "bob@example.com") (Some "555-0199") None),
     Server.mkStore [Business.mk 1 "B"] [Service.mk 1 1 "Cut" 30]
       [Staff.mk 1 1 "S"]
       [Customer.mk 1 1 "Bob" (Some "bob@example.com") (Some "555-0199") None]
       [Appointment.mk 1 1 1 1 1 "2024-01-10" "10:00" "10:30" "confirmed" None]
       2 2).
Proof. split; reflexivity. Qed.

(** C8, amended.  The initial status is chosen by the page that builds the
    request: the public booking page that calls [calculateEndTime] asks for
    "pending", the public booking page [book.tsx] asks for "confirmed" and
    the staff dashboard asks for "confirmed".  The route inserts the status
    the request carries, and "pending" when it carries none. *)
Theorem initial_status_per_entry_point :
  (forall services data,
      option_map AppointmentData.status
        (Request.appointmentData (Client.BookingPage.mutationFn services data))
      = Some (Some "pending"))
  /\
  (forall services data,
      option_map AppointmentData.status
        (Request.appointmentData (Client.Book.mutationFn services data))
      = Some (Some "confirmed"))
  /\
  (forall services data,
      option_map AppointmentData.status
        (Request.appointmentData (Client.Dashboard.mutationFn services data))
      = Some (Some "confirmed"))
  /\
  (forall (businessId : nat) (body : Request.t) (s s' : Server.Store)
          (a : Appointment.t) (c : Customer.t),
      Server.bookAppointment businessId body s = (Server.Ok (a, c), s') ->
      exists ad,
        Request.appointmentData body = Some ad /\
        Appointment.status a
        = Server.statusOrDefault (AppointmentData.status ad) /\
        In a (Server.appointments s')).
Proof.
  split; [reflexivity|]. split; [reflexivity|]. split; [reflexivity|].
  intros b body s s' a c. rewrite bookAppointment_unfold.
  destruct (Request.customerData body) as [cd|]; [|discriminate].
  destruct (Server.findOrCreateCustomer b cd s) as [[c0|e] s1]; [|discriminate].
  unfold Server.parseAppointment.
  destruct (Request.appointmentData body) as [ad|]; [|discriminate].
  destruct (Schema.insertAppointmentSchema_parse ad) as [va|] eqn:P;
    [|discriminate].
  destruct (Server.createAppointment _ b s1) as [[a0|e] s2] eqn:K;
    [|discriminate].
  intros [= <- <- <-]. exists ad. split; [reflexivity|].
  destruct (createAppointment_tables _ _ _ _ _ K) as [_ [Ka [_ [_ [_ [_ [_ St]]]]]]].
  rewrite St, Ka. split.
  - destruct (insertAppointmentSchema_parse_some _ _ P)
      as [_ [_ [_ [_ [_ [_ [Ps _]]]]]]].
    simpl. rewrite Ps. reflexivity.
  - apply in_or_app. right. now left.
Qed.

Lemma initial_status_per_entry_point_witness :
  exists ad,
    Request.appointmentData (Scenario.requestFor "10:30" "11:00") = Some ad /\
    Appointment.status
      (Appointment.mk 2 1 2 1 1 "2024-01-10" "10:30" "11:00" "pending" None)
    = Server.statusOrDefault (AppointmentData.status ad) /\
    In (Appointment.mk 2 1 2 1 1 "2024-01-10" "10:30" "11:00" "pending" None)
       (Server.appointments
          (Server.mkStore [Business.mk 1 "B"] [Service.mk 1 1 "Cut" 30]
             [Staff.mk 1 1 "S"]
             [Scenario.ann;
              Customer.mk 2 1 "Bob" (Some "bob@example.com") None None]
             [Scenario.existing;
              Appointment.mk 2 1 2 1 1 "2024-01-10" "10:30" "11:00" "pending"
                None]
             3 3)).
Proof.
  apply (proj2 (proj2 (proj2 initial_status_per_entry_point)) 1
           (Scenario.requestFor "10:30" "11:00") Scenario.booked _ _
           (Customer.mk 2 1 "Bob" (Some "bob@example.com") None None)).
  reflexivity.
Defined.

(* ===================================================================== *)
(** ** Status updates *)
(* ===================================================================== *)

Section StatusUpdates.

Import Server.




End StatusUpdates.




(* ===================================================================== *)
(** ** More on the end-time arithmetic and the forms *)
(* ===================================================================== *)

Section MoreEndTime.

Import Js Client.

Lemma split_without_colon (s : string) :
  Pages.hasColon s = false -> split ":" s = [s].
Proof.
  induction s as [|c s IH]; simpl; [reflexivity|].
  intros H. apply orb_false_iff in H as [Hc Hs].
  rewrite Hc, (IH Hs). reflexivity.
Qed.

Lemma split_after_digits (a r : string) :
  allDigits a = true -> split ":" (a ++ ":" ++ r) = a :: split ":" r.
Proof.
  intros Ha. induction a as [|c a IH]; simpl; [reflexivity|].
  simpl in Ha. apply andb_true_iff in Ha as [Hc Ha].
  rewrite (isDigit_not_colon c Hc). simpl in IH. now rewrite (IH Ha).
Qed.

(** On the digits of a decimal, [digitsPrefix] computes what [Nat.of_uint]
    computes. *)
Lemma digitsPrefix_string_of_uint (d : uint) (acc : nat) (seen : bool) :
  exists seen',
    digitsPrefix (NilEmpty.string_of_uint d) acc seen
    = (Nat.of_uint_acc d acc, seen') /\
    (seen = true -> seen' = true) /\ (d <> Nil -> seen' = true).
Proof.
  revert acc seen.
  induction d as [|d IH|d IH|d IH|d IH|d IH|d IH|d IH|d IH|d IH|d IH];
    intros acc seen;
    [exists seen; simpl; repeat split; auto; intros H; now elim H| ..];
    cbn [NilEmpty.string_of_uint digitsPrefix];
    match goal with
    | |- context [isDigit ?c] =>
        change (isDigit c) with true; cbv iota;
        let v := eval vm_compute in (digitValue c) in
        change (digitValue c) with v
    end;
    match goal with
    | |- context [digitsPrefix _ ?a true] =>
        destruct (IH a true) as [seen' [E [T _]]]
    end;
    exists seen'; rewrite E; cbn [Nat.of_uint_acc];
    rewrite Nat.tail_mul_spec;
    (split; [f_equal; f_equal; lia|]);
    split; intros _; apply T; reflexivity.
Qed.

Lemma parseInt_toString (n : nat) : parseInt (toString n) = Some n.
Proof.
  unfold parseInt, toString, NilZero.string_of_uint.
  pose proof (DecimalNat.Unsigned.of_to n) as R. unfold Nat.of_uint in R.
  destruct (Nat.to_uint n) as [|d|d|d|d|d|d|d|d|d|d] eqn:E;
    [simpl in R; subst n; reflexivity| ..];
    match goal with
    | |- context [NilEmpty.string_of_uint ?u] =>
        destruct (digitsPrefix_string_of_uint u 0 false) as [seen' [P [_ T]]];
        rewrite P, T by discriminate; now rewrite R
    end.
Qed.

End MoreEndTime.

(** X1.  End times compose: advancing an "HH:MM" start by [d1] minutes and
    the result by [d2] minutes gives the same string as advancing the
    start by [d1 + d2] minutes at once. *)
Theorem calculateEndTime_compose :
  forall (startTime : string) (d1 d2 : nat),
    Client.isHHMM startTime = true ->
    Client.calculateEndTime (Client.calculateEndTime startTime d1) d2
    = Client.calculateEndTime startTime (d1 + d2).
Proof.
  intros s d1 d2 Hs.
  destruct (isHHMM_startMinutes s Hs) as [t Ht].
  rewrite (calculateEndTime_eq s d1 t Ht), (calculateEndTime_eq s (d1 + d2) t Ht).
  rewrite (calculateEndTime_eq _ d2 _ (startMinutes_formatTime _ _)).
  replace ((t + d1) / 60 * 60 + (t + d1) mod 60 + d2) with (t + (d1 + d2));
    [reflexivity|].
  pose proof (Nat.div_mod (t + d1) 60). lia.
Qed.

Lemma calculateEndTime_compose_witness :
  Client.calculateEndTime (Client.calculateEndTime "09:10" 45) 30
  = Client.calculateEndTime "09:10" (45 + 30).
Proof.
  apply (calculateEndTime_compose "09:10" 45 30). reflexivity.
Defined.

(** X2.  A start time without a colon has no minutes component: whatever
    the string and the duration, the computed end time is the string
    "NaN:NaN". *)
Theorem calculateEndTime_without_colon :
  forall (startTime : string) (duration : nat),
    Pages.hasColon startTime = false ->
    Client.calculateEndTime startTime duration = "NaN:NaN".
Proof.
  intros s d H. unfold Client.calculateEndTime, Client.startMinutes.
  rewrite (split_without_colon s H). simpl map.
  destruct (Js.Number s); reflexivity.
Qed.

Lemma calculateEndTime_without_colon_witness :
  Client.calculateEndTime "0930" 45 = "NaN:NaN".
Proof.
  apply (calculateEndTime_without_colon "0930" 45). reflexivity.
Defined.

(** X3.  Only the first two components of the start time are read: an
    "HH:MM" start followed by a colon and anything else (seconds, say)
    gives the same end time as the "HH:MM" start alone. *)
Theorem calculateEndTime_ignores_further_components :
  forall (startTime rest : string) (duration : nat),
    Client.isHHMM startTime = true ->
    Client.calculateEndTime (startTime ++ ":" ++ rest) duration
    = Client.calculateEndTime startTime duration.
Proof.
  intros s x d Hs.
  destruct (isHHMM_startMinutes s Hs) as [t Ht].
  rewrite (calculateEndTime_eq s d t Ht).
  apply calculateEndTime_eq.
  destruct s as [|a [|b [|c [|e [|f [|? ?]]]]]]; simpl in Hs; try discriminate.
  apply andb_true_iff in Hs as [Hs Hf]. apply andb_true_iff in Hs as [Hs He].
  apply andb_true_iff in Hs as [Hs Hc]. apply andb_true_iff in Hs as [Ha Hb].
  apply Ascii.eqb_eq in Hc. subst c.
  rewrite (startMinutes_HHMM a b e f Ha Hb He Hf) in Ht.
  unfold Client.startMinutes.
  change ((String a (String b (String ":" (String e (String f "")))))
            ++ ":" ++ x)
    with (String a (String b "") ++ ":" ++ (String e (String f "") ++ ":" ++ x)).
  rewrite !split_after_digits by (simpl; rewrite ?Ha, ?Hb, ?He, ?Hf; reflexivity).
  simpl map.
  rewrite (Number_two_digits a b Ha Hb), (Number_two_digits e f He Hf).
  exact Ht.
Qed.

Lemma calculateEndTime_ignores_further_components_witness :
  Client.calculateEndTime ("09:10" ++ ":" ++ "30") 45
  = Client.calculateEndTime "09:10" 45.
Proof.
  apply (calculateEndTime_ignores_further_components "09:10" "30" 45).
  reflexivity.
Defined.

(** X4.  Every start time the pages offer is an "HH:MM" time, and from any
    of them a duration below 390 minutes ends on the same day: the end
    time is an "HH:MM" string with hour below 24 and minute below 60 that
    denotes start + duration. *)
Theorem timeSlots_end_same_day :
  forall (slot : string) (duration : nat),
    In slot Pages.timeSlots ->
    duration < 390 ->
    Client.isHHMM slot = true /\
    exists t endHours endMins,
      Client.startMinutes slot = Some t /\
      Client.calculateEndTime slot duration
      = Client.formatTime (Some endHours) (Some endMins) /\
      endHours < 24 /\ endMins < 60 /\
      endHours * 60 + endMins = t + duration /\
      Client.isHHMM (Client.calculateEndTime slot duration) = true.
Proof.
  intros slot d Hin Hd.
  assert (B : Client.isHHMM slot = true /\
              exists t, Client.startMinutes slot = Some t /\ t <= 1050).
  { unfold Pages.timeSlots in Hin. simpl in Hin.
    repeat (destruct Hin as [<-|Hin];
            [split; [reflexivity|eexists; split; [reflexivity|cbv; lia]]|]).
    contradiction. }
  destruct B as [Hs [t [Ht Hb]]]. split; [exact Hs|].
  exists t, ((t + d) / 60), ((t + d) mod 60).
  rewrite (calculateEndTime_eq slot d t Ht).
  assert (Hh : (t + d) / 60 < 24) by (apply Nat.Div0.div_lt_upper_bound; lia).
  assert (Hm : (t + d) mod 60 < 60) by (apply Nat.mod_upper_bound; discriminate).
  repeat split; auto.
  - pose proof (Nat.div_mod (t + d) 60). lia.
  - apply isHHMM_formatTime; lia.
Qed.

Lemma timeSlots_end_same_day_witness :
  Client.isHHMM "17:30" = true /\
  exists t endHours endMins,
    Client.startMinutes "17:30" = Some t /\
    Client.calculateEndTime "17:30" 389
    = Client.formatTime (Some endHours) (Some endMins) /\
    endHours < 24 /\ endMins < 60 /\
    endHours * 60 + endMins = t + 389 /\
    Client.isHHMM (Client.calculateEndTime "17:30" 389) = true.
Proof.
  apply (timeSlots_end_same_day "17:30" 389).
  - unfold Pages.timeSlots. do 17 right. left. reflexivity.
  - apply Nat.ltb_lt. reflexivity.
Defined.

(** X5.  The value a select box gives to a service, [id.toString()],
    parses back to the id, so the page finds the service again: with
    unique ids in the list, [selectedService] on the value of a listed
    service is that service and its positive duration is the one used.
    A value that names no listed service selects nothing, and the
    duration is then 60. *)
Theorem selectedService_round_trip :
  (forall n, Js.parseInt (Pages.optionValue n) = Some n) /\
  (forall (services : list Service.t) (x : Service.t),
      In x services ->
      NoDup (map Service.id services) ->
      Client.selectedService services (Pages.optionValue (Service.id x))
      = Some x /\
      (0 < Service.duration x ->
       Client.durationOr60
         (Client.selectedService services (Pages.optionValue (Service.id x)))
       = Service.duration x)) /\
  (forall (services : list Service.t) (n : nat),
      ~ In n (map Service.id services) ->
      Client.selectedService services (Pages.optionValue n) = None /\
      Client.durationOr60
        (Client.selectedService services (Pages.optionValue n)) = 60).
Proof.
  split; [exact parseInt_toString|]. split.
  - intros services x Hin Hnd.
    assert (E : Client.selectedService services (Pages.optionValue (Service.id x))
                = Some x).
    { unfold Client.selectedService, Pages.optionValue.
      rewrite parseInt_toString.
      induction services as [|y l IH]; [contradiction|].
      simpl in *. inversion Hnd as [|? ? Hy Hl]; subst.
      destruct Hin as [->|Hin].
      - now rewrite Nat.eqb_refl.
      - destruct (Service.id y =? Service.id x) eqn:E.
        + apply Nat.eqb_eq in E. elim Hy. rewrite E. now apply in_map.
        + now apply IH. }
    split; [exact E|]. intros Hpos. rewrite E. unfold Client.durationOr60.
    destruct (Service.duration x =? 0) eqn:Z; [|reflexivity].
    apply Nat.eqb_eq in Z. lia.
  - intros services n Hn.
    assert (E : Client.selectedService services (Pages.optionValue n) = None).
    { unfold Client.selectedService, Pages.optionValue.
      rewrite parseInt_toString.
      induction services as [|y l IH]; [reflexivity|].
      simpl in *. destruct (Service.id y =? n) eqn:E.
      - apply Nat.eqb_eq in E. elim Hn. now left.
      - apply IH. intros H. apply Hn. now right. }
    rewrite E. split; reflexivity.
Qed.

Lemma selectedService_round_trip_witness :
  Client.selectedService (Server.services Scenario.shop)
    (Pages.optionValue (Service.id (Service.mk 1 1 "Cut" 30)))
  = Some (Service.mk 1 1 "Cut" 30) /\
  (0 < Service.duration (Service.mk 1 1 "Cut" 30) ->
   Client.durationOr60
     (Client.selectedService (Server.services Scenario.shop)
        (Pages.optionValue (Service.id (Service.mk 1 1 "Cut" 30))))
   = Service.duration (Service.mk 1 1 "Cut" 30)).
Proof.
  apply (proj1 (proj2 selectedService_round_trip)
           (Server.services Scenario.shop) (Service.mk 1 1 "Cut" 30)).
  - left. reflexivity.
  - repeat constructor. intros H. exact H.
Defined.

(* ===================================================================== *)
(** ** More on customer resolution and the booking handler *)
(* ===================================================================== *)

Section MoreBooking.

Import Js Server.

Lemma getCustomerByContact_some s b email phone c :
  getCustomerByContact s b email phone = Some c ->
  In c (customers s) /\
  (truthy email = true /\ matchesEmail b email c = true \/
   truthy phone = true /\ matchesPhone b phone c = true).
Proof.
  unfold getCustomerByContact.
  destruct (truthy email) eqn:Te.
  - destruct (selectFirst (matchesEmail b email) (customers s)) as [c1|] eqn:E.
    + intros [= <-]. destruct (selectFirst_some _ _ _ E). auto.
    + destruct (truthy phone) eqn:Tp; [|discriminate].
      intros G. destruct (selectFirst_some _ _ _ G). auto.
  - destruct (truthy phone) eqn:Tp; [|discriminate].
    intros G. destruct (selectFirst_some _ _ _ G). auto.
Qed.

Lemma getCustomerByContact_business s b email phone c :
  getCustomerByContact s b email phone = Some c -> Customer.businessId c = b.
Proof.
  intros G.
  destruct (getCustomerByContact_some _ _ _ _ _ G) as [_ [[_ M]|[_ M]]];
    apply andb_true_iff in M as [M _]; now apply Nat.eqb_eq in M.
Qed.

Lemma eqText_eq (column value : option string) :
  eqText column value = true -> column = value.
Proof.
  destruct column as [a|], value as [b|]; simpl; try discriminate.
  intros H. apply String.eqb_eq in H. now subst.
Qed.

(** The customer step appends at most one row, which belongs to the
    business of the route and takes its id from the sequence. *)
Lemma findOrCreateCustomer_appends b cd s r s1 :
  findOrCreateCustomer b cd s = (r, s1) ->
  businesses s1 = businesses s /\ services s1 = services s /\
  staff s1 = staff s /\ appointments s1 = appointments s /\
  appointmentsSeq s1 = appointmentsSeq s /\
  (s1 = s \/
   customers s1 = customers s /\ customersSeq s1 = S (customersSeq s) /\
   r = Throw ForeignKeyViolation \/
   exists c, r = Ok c /\ customers s1 = (customers s ++ [c])%list /\
             customersSeq s1 = S (customersSeq s) /\
             Customer.businessId c = b /\ Customer.id c = customersSeq s /\
             hasBusiness s b = true).
Proof.
  rewrite findOrCreateCustomer_unfold.
  destruct (getCustomerByContact s b _ _).
  - intros [= <- <-]. repeat split; auto.
  - destruct (Schema.insertCustomerSchema_parse cd) as [v|].
    + unfold createCustomer. destruct (hasBusiness s b) eqn:Hb;
        intros [= <- <-]; simpl; repeat split; auto.
      right. right. eexists. repeat split.
    + intros [= <- <-]. repeat split; auto.
Qed.

Lemma createAppointment_store va b s r s2 :
  createAppointment va b s = (r, s2) ->
  businesses s2 = businesses s /\ services s2 = services s /\
  staff s2 = staff s /\ customers s2 = customers s /\
  customersSeq s2 = customersSeq s /\
  (appointmentsSeq s2 = appointmentsSeq s \/
   appointmentsSeq s2 = S (appointmentsSeq s)) /\
  match r with
  | Ok a =>
      appointments s2 = (appointments s ++ [a])%list /\
      Appointment.id a = appointmentsSeq s /\
      Appointment.businessId a = b /\
      Appointment.customerId a = InsertAppointment.customerId va /\
      Appointment.serviceId a = InsertAppointment.serviceId va /\
      Appointment.staffId a = InsertAppointment.staffId va /\
      hasBusiness s b = true /\
      hasCustomer s (InsertAppointment.customerId va) = true /\
      hasService s (InsertAppointment.serviceId va) = true /\
      hasStaff s (InsertAppointment.staffId va) = true /\
      appointmentsSeq s2 = S (appointmentsSeq s) /\
      Appointment.status a = statusOrDefault (InsertAppointment.status va)
  | Throw e =>
      appointments s2 = appointments s /\
      (e = OutOfRange \/ e = InvalidText \/ e = UniqueViolation \/
       e = ForeignKeyViolation)
  end.
Proof.
  unfold createAppointment.
  destruct (negb _); [intros [= <- <-]; repeat split; auto|].
  destruct (negb _); [intros [= <- <-]; repeat split; auto|].
  destruct (existsb _ (appointments s));
    [intros [= <- <-]; simpl; repeat split; auto|].
  destruct (hasBusiness s b) eqn:H1; simpl;
    [destruct (hasCustomer s _) eqn:H2; simpl;
     [destruct (hasService s _) eqn:H3; simpl;
      [destruct (hasStaff s _) eqn:H4; simpl|]|]|];
    intros [= <- <-]; simpl; repeat split; auto.
Qed.

Lemma selectFirst_unique {A} (key : A -> nat) (l : list A) (x : A) :
  NoDup (map key l) -> In x l ->
  selectFirst (fun y => key y =? key x) l = Some x.
Proof.
  unfold selectFirst. induction l as [|y l IH]; [contradiction|].
  simpl. intros Hnd Hin. inversion Hnd as [|? ? Hy Hl]; subst.
  destruct Hin as [->|Hin].
  - now rewrite Nat.eqb_refl.
  - destruct (key y =? key x) eqn:E.
    + apply Nat.eqb_eq in E. elim Hy. rewrite E. now apply in_map.
    + now apply IH.
Qed.

Lemma selectFirst_fresh {A} (key : A -> nat) (l : list A) (k bound : nat) :
  (forall y, In y l -> key y < bound) -> bound <= k ->
  selectFirst (fun y => key y =? k) l = None.
Proof.
  intros Hb Hk. apply selectFirst_none. intros y Hy.
  apply Nat.eqb_neq. specialize (Hb y Hy). lia.
Qed.

Lemma existsb_app_true {A} (p : A -> bool) (l l' : list A) :
  existsb p l = true -> existsb p (l ++ l') = true.
Proof. intros H. rewrite existsb_app, H. reflexivity. Qed.

End MoreBooking.

(** X6.  The contact lookup is scoped to the business: a customer it
    returns is a stored row of the given business, and either the email
    given is non-empty and is the row's email, or the phone given is
    non-empty and is the row's phone. *)
Theorem getCustomerByContact_scoped :
  forall (s : Server.Store) (businessId : nat) (email phone : option string)
         (c : Customer.t),
    Server.getCustomerByContact s businessId email phone = Some c ->
    In c (Server.customers s) /\
    Customer.businessId c = businessId /\
    (Js.truthy email = true /\ Customer.email c = email \/
     Js.truthy phone = true /\ Customer.phone c = phone).
Proof.
  intros s b email phone c G.
  destruct (getCustomerByContact_some _ _ _ _ _ G) as [Hin [[T M]|[T M]]];
    apply andb_true_iff in M as [Mb Mc];
    apply Nat.eqb_eq in Mb; apply eqText_eq in Mc; auto.
Qed.

Lemma getCustomerByContact_scoped_witness :
  In Scenario.ann (Server.customers Scenario.booked) /\
  Customer.businessId Scenario.ann = 1 /\
  (Js.truthy None = true /\ Customer.email Scenario.ann = None \/
   Js.truthy (Some "555-0100") = true /\
   Customer.phone Scenario.ann = Some "555-0100").
Proof.
  apply (getCustomerByContact_scoped Scenario.booked 1 None (Some "555-0100")
           Scenario.ann).
  reflexivity.
Defined.

(** X7.  Resolution by phone is idempotent: for an input with a non-empty
    phone (with or without an email), when a first run returns a customer,
    a second run with the same input on the store the first one left
    returns the same customer and writes nothing. *)
Theorem findOrCreateCustomer_idempotent_by_phone :
  forall (s s1 : Server.Store) (businessId : nat) (cd : CustomerData.t)
         (c1 : Customer.t),
    Js.truthy (CustomerData.phone cd) = true ->
    Server.findOrCreateCustomer businessId cd s = (Server.Ok c1, s1) ->
    Server.findOrCreateCustomer businessId cd s1 = (Server.Ok c1, s1).
Proof.
  intros s s1 b cd c1 Hp Hrun.
  apply (findOrCreateCustomer_again b cd s c1 s1); [|exact Hrun].
  rewrite Hp. apply orb_true_r.
Qed.

Lemma findOrCreateCustomer_idempotent_by_phone_witness :
  Server.findOrCreateCustomer 1
    (CustomerData.mk (Some "Cy") None (Some "555-0123") None)
    (Server.mkStore [Business.mk 1 "B"] [Service.mk 1 1 "Cut" 30]
       [Staff.mk 1 1 "S"]
       [Customer.mk 1 1 "Cy" None (Some "555-0123") None] [] 2 1)
  = (Server.Ok (Customer.mk 1 1 "Cy" None (Some "555-0123") None),
     Server.mkStore [Business.mk 1 "B"] [Service.mk 1 1 "Cut" 30]
       [Staff.mk 1 1 "S"]
       [Customer.mk 1 1 "Cy" None (Some "555-0123") None] [] 2 1).
Proof.
  apply (findOrCreateCustomer_idempotent_by_phone Scenario.shop _ 1
           (CustomerData.mk (Some "Cy") None (Some "555-0123") None)).
  - reflexivity.
  - reflexivity.
Defined.

(** X8.  A public booking for one business touches nothing of another:
    whatever the request and whether it succeeds or throws, the customers
    and the appointments of every other business are the same before and
    after, and the businesses, services and staff tables are untouched.
    When it succeeds, the returned customer and appointment belong to the
    business of the route. *)
Theorem bookAppointment_tenant_isolation :
  forall (businessId other : nat) (reqBody : Request.t) (s s' : Server.Store)
         (r : Server.result (Appointment.t * Customer.t)),
    Server.bookAppointment businessId reqBody s = (r, s') ->
    (other <> businessId ->
     Storage.getCustomers s' other = Storage.getCustomers s other /\
     filter (fun a => Appointment.businessId a =? other) (Server.appointments s')
     = filter (fun a => Appointment.businessId a =? other) (Server.appointments s))
    /\
    Server.businesses s' = Server.businesses s /\
    Server.services s' = Server.services s /\
    Server.staff s' = Server.staff s /\
    (forall a c, r = Server.Ok (a, c) ->
       Appointment.businessId a = businessId /\
       Customer.businessId c = businessId /\
       In c (Storage.getCustomers s' businessId)).
Proof.
  intros b other body s s' r. rewrite bookAppointment_unfold.
  destruct (Request.customerData body) as [cd|].
  2:{ intros [= <- <-].
      split; [auto|]. do 3 (split; [reflexivity|]).
      intros a c H. discriminate H. }
  destruct (Server.findOrCreateCustomer b cd s) as [[c|e] s1] eqn:F.
  - pose proof (findOrCreateCustomer_appends _ _ _ _ _ F)
      as [Eb [Esv [Est [Eap [_ Hc]]]]].
    destruct (findOrCreateCustomer_ok _ _ _ _ _ F) as [Hin _].
    assert (Cb : Customer.businessId c = b).
    { destruct Hc as [->|[[_ [_ H]]|[c' [[= <-] [_ [_ [H _]]]]]]];
        [|discriminate H|exact H].
      rewrite findOrCreateCustomer_unfold in F.
      destruct (Server.getCustomerByContact s b _ _) as [c0|] eqn:G.
      - assert (c0 = c) by congruence. subst c0.
        exact (getCustomerByContact_business _ _ _ _ _ G).
      - destruct (Schema.insertCustomerSchema_parse cd); [|discriminate].
        unfold Server.createCustomer in F.
        destruct (Server.hasBusiness s b); [|discriminate].
        assert (E : Customer.businessId c = b) by (inversion F; reflexivity).
        exact E. }
    assert (Co : other <> b ->
                 Storage.getCustomers s1 other = Storage.getCustomers s other).
    { intros Hne. unfold Storage.getCustomers.
      destruct Hc as [->|[[-> _]|[c' [[= <-] [-> _]]]]]; try reflexivity.
      rewrite filter_app. simpl. rewrite Cb.
      destruct (b =? other) eqn:E;
        [apply Nat.eqb_eq in E; now elim Hne|apply app_nil_r]. }
    destruct (Server.parseAppointment body) as [va|].
    2:{ intros [= <- <-]. rewrite Eap.
        split; [auto|]. do 3 (split; [assumption|]).
        intros a c0 H. discriminate H. }
    destruct (Server.createAppointment _ b s1) as [[a|e] s2] eqn:K;
      pose proof (createAppointment_store _ _ _ _ _ K)
        as [Kb [Ksv [Kst [Kc [_ [_ Ka]]]]]];
      intros [= <- <-].
    + destruct Ka as [Ka [_ [Kbus _]]].
      unfold Storage.getCustomers in *. rewrite Kc, Kb, Ksv, Kst, Ka, Eap.
      split; [|do 3 (split; [assumption|])].
      * intros Hne. split; [auto|]. rewrite filter_app. simpl. rewrite Kbus.
        destruct (b =? other) eqn:E;
          [apply Nat.eqb_eq in E; now elim Hne|apply app_nil_r].
      * intros a0 c0 [= <- <-]. split; [exact Kbus|]. split; [exact Cb|].
        apply filter_In. split; [exact Hin|]. rewrite Cb. apply Nat.eqb_refl.
    + destruct Ka as [Ka _].
      unfold Storage.getCustomers in *. rewrite Kc, Kb, Ksv, Kst, Ka, Eap.
      split; [auto|]. do 3 (split; [assumption|]).
      intros a0 c0 H. discriminate H.
  - pose proof (findOrCreateCustomer_appends _ _ _ _ _ F)
      as [Eb [Esv [Est [Eap [_ Hc]]]]].
    intros [= <- <-]. rewrite Eap.
    split; [|do 3 (split; [assumption|]); intros a c H; discriminate H].
    intros _. split; [|reflexivity]. unfold Storage.getCustomers.
    destruct Hc as [->|[[-> _]|[c' [H _]]]]; [auto|auto|discriminate H].
Qed.

Lemma bookAppointment_tenant_isolation_witness :
  Storage.getCustomers
    (snd (Server.bookAppointment 1 (Scenario.requestFor "10:30" "11:00")
            Scenario.booked)) 2
  = Storage.getCustomers Scenario.booked 2 /\
  filter (fun a => Appointment.businessId a =? 2)
    (Server.appointments
       (snd (Server.bookAppointment 1 (Scenario.requestFor "10:30" "11:00")
               Scenario.booked)))
  = filter (fun a => Appointment.businessId a =? 2)
      (Server.appointments Scenario.booked).
Proof.
  apply (proj1 (bookAppointment_tenant_isolation 1 2
                  (Scenario.requestFor "10:30" "11:00") Scenario.booked _ _
                  (surjective_pairing _))).
  discriminate.
Defined.



(* ===================================================================== *)
(** ** The store invariant *)
(* ===================================================================== *)

Section StoreInvariant.

Import Server Invariant.

Lemma NoDup_map_snoc {A} (key : A -> nat) (l : list A) (x : A) :
  NoDup (map key l) -> (forall y, In y l -> key y < key x) ->
  NoDup (map key (l ++ [x])).
Proof.
  intros Hnd Hlt. rewrite map_app. apply NoDup_app; [exact Hnd| |].
  - simpl. constructor; [intros []|constructor].
  - intros k Hk [<-|[]]. apply in_map_iff in Hk as [y [E Hy]].
    specialize (Hlt y Hy). lia.
Qed.

Lemma NoDup_map_filter {A} (key : A -> nat) (p : A -> bool) (l : list A) :
  NoDup (map key l) -> NoDup (map key (filter p l)).
Proof.
  induction l as [|y l IH]; simpl; [auto|].
  intros Hnd. inversion Hnd as [|? ? Hy Hl]; subst.
  destruct (p y); simpl; [constructor|]; auto.
  intros H. apply Hy. apply in_map_iff in H as [z [E Hz]].
  apply in_map_iff. exists z. split; [exact E|].
  now apply filter_In in Hz as [Hz _].
Qed.

Lemma createCustomer_consistent v b s r s1 :
  consistent s -> createCustomer v b s = (r, s1) -> consistent s1.
Proof.
  intros [C1 C2 A1 A2 CR AR]. unfold createCustomer.
  destruct (hasBusiness s b) eqn:Hb; intros [= <- <-].
  - constructor; simpl; auto.
    + intros c Hc. apply in_app_or in Hc as [Hc|[<-|[]]]; simpl;
        [specialize (C1 c Hc)|]; lia.
    + apply NoDup_map_snoc; [exact C2|]. intros y Hy. simpl. auto.
    + intros c Hc. apply in_app_or in Hc as [Hc|[<-|[]]].
      * exact (CR c Hc).
      * exact Hb.
    + intros a Ha. destruct (AR a Ha) as [R1 [R2 [R3 R4]]].
      repeat split; auto. unfold hasCustomer in *. simpl.
      now apply existsb_app_true.
  - constructor; simpl; auto.
    intros c Hc. specialize (C1 c Hc). lia.
Qed.

Lemma createAppointment_consistent va b s r s2 :
  consistent s -> createAppointment va b s = (r, s2) -> consistent s2.
Proof.
  intros [C1 C2 A1 A2 CR AR] K.
  pose proof (createAppointment_store _ _ _ _ _ K)
    as [Tb [Tsv [Tst [Tc [Tcs [Tseq T]]]]]].
  assert (Href : forall k,
            (hasBusiness s2 k = hasBusiness s k) /\
            (hasCustomer s2 k = hasCustomer s k) /\
            (hasService s2 k = hasService s k) /\
            (hasStaff s2 k = hasStaff s k)).
  { intros k. unfold hasBusiness, hasCustomer, hasService, hasStaff.
    rewrite Tb, Tsv, Tst, Tc. repeat split. }
  assert (Hold : forall a, In a (appointments s) ->
            Appointment.id a < appointmentsSeq s2 /\
            hasBusiness s2 (Appointment.businessId a) = true /\
            hasCustomer s2 (Appointment.customerId a) = true /\
            hasService s2 (Appointment.serviceId a) = true /\
            hasStaff s2 (Appointment.staffId a) = true).
  { intros a Ha. specialize (A1 a Ha).
    destruct (AR a Ha) as [R1 [R2 [R3 R4]]].
    split; [destruct Tseq as [->| ->]; lia|].
    destruct (Href (Appointment.businessId a)) as [-> _].
    destruct (Href (Appointment.customerId a)) as [_ [-> _]].
    destruct (Href (Appointment.serviceId a)) as [_ [_ [-> _]]].
    destruct (Href (Appointment.staffId a)) as [_ [_ [_ ->]]].
    auto. }
  constructor.
  - rewrite Tc, Tcs. exact C1.
  - rewrite Tc. exact C2.
  - destruct r as [a|e].
    + destruct T as [Ta [Tid [_ [_ [_ [_ [_ [_ [_ [_ [Ts _]]]]]]]]]]].
      rewrite Ta. intros x Hx. apply in_app_or in Hx as [Hx|[<-|[]]].
      * now apply Hold.
      * rewrite Tid, Ts. lia.
    + destruct T as [Ta _]. rewrite Ta. intros x Hx. now apply Hold.
  - destruct r as [a|e].
    + destruct T as [Ta [Tid _]]. rewrite Ta.
      apply NoDup_map_snoc; [exact A2|].
      intros y Hy. rewrite Tid. exact (A1 y Hy).
    + destruct T as [Ta _]. rewrite Ta. exact A2.
  - rewrite Tc. intros c Hc.
    destruct (Href (Customer.businessId c)) as [-> _]. exact (CR c Hc).
  - destruct r as [a|e].
    + destruct T as [Ta [_ [Tbus [Tcu [Tse [Tsf [H1 [H2 [H3 [H4 _]]]]]]]]]].
      rewrite Ta. intros x Hx. apply in_app_or in Hx as [Hx|[<-|[]]].
      * now apply Hold.
      * rewrite Tbus, Tcu, Tse, Tsf.
        destruct (Href b) as [-> _].
        destruct (Href (InsertAppointment.customerId va)) as [_ [-> _]].
        destruct (Href (InsertAppointment.serviceId va)) as [_ [_ [-> _]]].
        destruct (Href (InsertAppointment.staffId va)) as [_ [_ [_ ->]]].
        auto.
    + destruct T as [Ta _]. rewrite Ta. intros x Hx. now apply Hold.
Qed.

Lemma findOrCreateCustomer_consistent b cd s r s1 :
  consistent s -> findOrCreateCustomer b cd s = (r, s1) -> consistent s1.
Proof.
  intros C. rewrite findOrCreateCustomer_unfold.
  destruct (getCustomerByContact s b _ _); [now intros [= <- <-]|].
  destruct (Schema.insertCustomerSchema_parse cd) as [v|];
    [|now intros [= <- <-]].
  now apply createCustomer_consistent.
Qed.

Lemma bookAppointment_consistent b body s r s' :
  consistent s -> bookAppointment b body s = (r, s') -> consistent s'.
Proof.
  intros C. rewrite bookAppointment_unfold.
  destruct (Request.customerData body) as [cd|]; [|now intros [= <- <-]].
  destruct (findOrCreateCustomer b cd s) as [[c|e] s1] eqn:F;
    pose proof (findOrCreateCustomer_consistent _ _ _ _ _ C F) as C1;
    [|now intros [= <- <-]].
  destruct (parseAppointment body) as [va|]; [|now intros [= <- <-]].
  destruct (createAppointment _ b s1) as [[a|e] s2] eqn:K;
    pose proof (createAppointment_consistent _ _ _ _ _ C1 K);
    now intros [= <- <-].
Qed.

Lemma applyPartial_id (p : Storage.PartialAppointment) (a : Appointment.t) :
  Storage.pa_id p = None ->
  Appointment.id (Storage.applyPartial p a) = Appointment.id a.
Proof. intros H. unfold Storage.applyPartial. simpl. now rewrite H. Qed.

Lemma updateAppointment_consistent id p s r s' :
  Storage.pa_id p = None ->
  consistent s -> Storage.updateAppointment id p s = (r, s') -> consistent s'.
Proof.
  intros Hid C. pose proof C as [C1 C2 A1 A2 CR AR].
  unfold Storage.updateAppointment.
  destruct (Storage.partialIsEmpty p); [now intros [= <- <-]|].
  destruct (Storage.invalidDate p); [now intros [= <- <-]|].
  destruct (negb (Storage.partialInRange id p)); [now intros [= <- <-]|].
  destruct (negb (Storage.partialStorable p)); [now intros [= <- <-]|].
  destruct (filter _ (appointments s)) as [|m ms]; [now intros [= <- <-]|].
  destruct (Storage.keyTaken s id p); [now intros [= <- <-]|].
  destruct (Storage.referencesExist s p) eqn:R; simpl; [|now intros [= <- <-]].
  intros [= <- <-].
  unfold Storage.referencesExist in R.
  apply andb_true_iff in R as [R R4]. apply andb_true_iff in R as [R R3].
  apply andb_true_iff in R as [R1 R2].
  constructor; simpl; auto.
  - intros a Ha. apply in_map_iff in Ha as [a0 [<- Ha0]].
    specialize (A1 a0 Ha0).
    destruct (Appointment.id a0 =? id); [rewrite (applyPartial_id _ _ Hid)|];
      exact A1.
  - rewrite map_map.
    rewrite (map_ext _ Appointment.id); [exact A2|].
    intros a. destruct (Appointment.id a =? id);
      [apply (applyPartial_id _ _ Hid)|reflexivity].
  - intros a Ha. apply in_map_iff in Ha as [a0 [<- Ha0]].
    destruct (AR a0 Ha0) as [Q1 [Q2 [Q3 Q4]]].
    destruct (Appointment.id a0 =? id); [|auto].
    unfold Storage.applyPartial. simpl.
    destruct (Storage.pa_businessId p), (Storage.pa_customerId p),
      (Storage.pa_serviceId p), (Storage.pa_staffId p); simpl; auto.
Qed.

Lemma deleteAppointment_consistent id s r s' :
  consistent s -> Storage.deleteAppointment id s = (r, s') -> consistent s'.
Proof.
  intros [C1 C2 A1 A2 CR AR]. unfold Storage.deleteAppointment.
  intros [= <- <-]. constructor; simpl; auto.
  - intros a Ha. apply filter_In in Ha as [Ha _]. auto.
  - now apply NoDup_map_filter.
  - intros a Ha. apply filter_In in Ha as [Ha _]. exact (AR a Ha).
Qed.

Lemma deleteService_consistent id s r s' :
  consistent s -> Storage.deleteService id s = (r, s') -> consistent s'.
Proof.
  intros [C1 C2 A1 A2 CR AR]. unfold Storage.deleteService.
  destruct (existsb _ (appointments s)) eqn:Ref; intros [= <- <-];
    [constructor; auto|].
  constructor; simpl; auto.
  intros a Ha. destruct (AR a Ha) as [R1 [R2 [R3 R4]]].
  repeat split; auto.
  unfold hasService in *. simpl.
  apply existsb_exists in R3 as [x [Hx Ex]]. apply existsb_exists.
  exists x. split; [|exact Ex]. apply filter_In. split; [exact Hx|].
  apply Nat.eqb_eq in Ex. rewrite Ex.
  destruct (Appointment.serviceId a =? id) eqn:E; [|reflexivity].
  assert (T : existsb (fun a0 => Appointment.serviceId a0 =? id)
                (appointments s) = true)
    by (apply existsb_exists; eauto).
  rewrite T in Ref. discriminate.
Qed.

End StoreInvariant.

(** X10.  The writes keep the database consistent as long as no update
    sets the [id] column.  Starting from a store in which customer and
    appointment ids are unique and below their sequences and every
    reference points to an existing row, any sequence of public bookings,
    appointment updates that leave [id] out (whatever else they set, the
    references included), appointment deletions and service deletions,
    succeeding or failing, leaves such a store: no duplicate id appears and
    no appointment is ever left naming a missing business, customer,
    service or staff member.  An update that sets [id] can leave a row
    whose id the sequence has not reached. *)
Theorem writes_keep_store_consistent :
  (forall (ws : list Invariant.write) (s : Server.Store),
      forallb Invariant.keepsId ws = true ->
      Invariant.consistent s ->
      Invariant.consistent (Invariant.afterAll ws s))
  /\
  (Invariant.consistent Scenario.booked /\
   ~ Invariant.consistent
       (Invariant.afterAll
          [Invariant.UpdateAppointment 1
             (Storage.mkPartial (Some 9) None None None None None None None
                None None None)]
          Scenario.booked)).
Proof.
  split.
  - induction ws as [|w ws IH]; intros s K C; [exact C|].
    simpl in K. apply andb_true_iff in K as [Kw K].
    change (Invariant.consistent (Invariant.afterAll ws (Invariant.after w s))).
    apply IH; [exact K|].
    destruct w as [b body|id p|id|id]; unfold Invariant.after.
    + eapply bookAppointment_consistent; [exact C|apply surjective_pairing].
    + eapply updateAppointment_consistent;
        [|exact C|apply surjective_pairing].
      simpl in Kw. destruct (Storage.pa_id p); [discriminate|reflexivity].
    + eapply deleteAppointment_consistent; [exact C|apply surjective_pairing].
    + eapply deleteService_consistent; [exact C|apply surjective_pairing].
  - split.
    + constructor; simpl.
      * intros c [<-|[]]. simpl. lia.
      * repeat constructor. intros [].
      * intros a [<-|[]]. simpl. lia.
      * repeat constructor. intros [].
      * intros c [<-|[]]. reflexivity.
      * intros a [<-|[]]. repeat split.
    + intros [_ _ A1 _ _ _].
      specialize (A1 _ (or_introl eq_refl)). vm_compute in A1. lia.
Qed.

Lemma writes_keep_store_consistent_witness :
  Invariant.consistent
    (Invariant.afterAll
       [Invariant.Book 1 (Scenario.requestFor "10:30" "11:00");
        Invariant.UpdateAppointment 1
          (Storage.mkPartial None None None (Some 1) None None None None
             (Some "completed") None None);
        Invariant.DeleteService 1;
        Invariant.DeleteAppointment 2]
       Scenario.shop).
Proof.
  apply (proj1 writes_keep_store_consistent _ Scenario.shop).
  - reflexivity.
  - constructor; simpl.
    + intros c [].
    + constructor.
    + intros a [].
    + constructor.
    + intros c [].
    + intros a [].
Defined.

(** X11.  What a successful booking returns can be read back by id.  In a
    consistent store, the appointment it returns takes the next value of
    the sequence as id, references the returned customer, and
    [getAppointment] on that id returns exactly this row; [getCustomer] on
    the customer's id returns exactly the returned customer. *)
Theorem booking_can_be_read_back :
  forall (businessId : nat) (reqBody : Request.t) (s s' : Server.Store)
         (a : Appointment.t) (c : Customer.t),
    Invariant.consistent s ->
    Server.bookAppointment businessId reqBody s = (Server.Ok (a, c), s') ->
    Appointment.id a = Server.appointmentsSeq s /\
    Appointment.customerId a = Customer.id c /\
    Server.getAppointment s' (Appointment.id a) = Some a /\
    Storage.getCustomer s' (Customer.id c) = Some c.
Proof.
  intros b body s s' a c C Hrun.
  pose proof (bookAppointment_consistent _ _ _ _ _ C Hrun) as C'.
  rewrite bookAppointment_unfold in Hrun.
  destruct (Request.customerData body) as [cd|]; [|discriminate].
  destruct (Server.findOrCreateCustomer b cd s) as [[c0|e] s1] eqn:F;
    [|discriminate].
  destruct (findOrCreateCustomer_appends _ _ _ _ _ F)
    as [_ [_ [_ [Eap [Eseq _]]]]].
  destruct (findOrCreateCustomer_ok _ _ _ _ _ F) as [Hin _].
  destruct (Server.parseAppointment body) as [va|]; [|discriminate].
  destruct (Server.createAppointment _ b s1) as [[a0|e] s2] eqn:K;
    [|discriminate].
  injection Hrun as -> -> ->.
  destruct (createAppointment_store _ _ _ _ _ K)
    as [_ [_ [_ [Kc [_ [_ [Ka [Kid [_ [Kcust _]]]]]]]]]].
  rewrite Eseq in Kid. split; [exact Kid|]. split; [exact Kcust|]. split.
  - unfold Server.getAppointment. rewrite Ka.
    apply selectFirst_app_new; [|apply Nat.eqb_refl].
    rewrite Eap.
    apply (selectFirst_fresh Appointment.id _ _ (Server.appointmentsSeq s));
      [apply (Invariant.appointmentIdsBelowSeq s C)|lia].
  - unfold Storage.getCustomer.
    apply (selectFirst_unique Customer.id).
    + apply (Invariant.customerIdsUnique s' C').
    + rewrite Kc. exact Hin.
Qed.

Lemma booking_can_be_read_back_witness :
  Appointment.id
    (Appointment.mk 1 1 1 1 1 "2024-01-10" "10:30" "11:00" "pending" None)
  = Server.appointmentsSeq Scenario.shop /\
  Appointment.customerId
    (Appointment.mk 1 1 1 1 1 "2024-01-10" "10:30" "11:00" "pending" None)
  = Customer.id (Customer.mk 1 1 "Bob" (Some "bob@example.com") None None) /\
  Server.getAppointment
    (snd (Server.bookAppointment 1 (Scenario.requestFor "10:30" "11:00")
            Scenario.shop))
    (Appointment.id
       (Appointment.mk 1 1 1 1 1 "2024-01-10" "10:30" "11:00" "pending" None))
  = Some (Appointment.mk 1 1 1 1 1 "2024-01-10" "10:30" "11:00" "pending" None) /\
  Storage.getCustomer
    (snd (Server.bookAppointment 1 (Scenario.requestFor "10:30" "11:00")
            Scenario.shop))
    (Customer.id (Customer.mk 1 1 "Bob" (Some "bob@example.com") None None))
  = Some (Customer.mk 1 1 "Bob" (Some "bob@example.com") None None).
Proof.
  apply (booking_can_be_read_back 1 (Scenario.requestFor "10:30" "11:00")
           Scenario.shop).
  - constructor; simpl.
    + intros c [].
    + constructor.
    + intros a [].
    + constructor.
    + intros c [].
    + intros a [].
  - reflexivity.
Defined.



Section Updates.

Import Server Storage.

Lemma updateAppointment_tables id p s :
  businesses (snd (Storage.updateAppointment id p s)) = businesses s /\
  services (snd (Storage.updateAppointment id p s)) = services s /\
  staff (snd (Storage.updateAppointment id p s)) = staff s /\
  customers (snd (Storage.updateAppointment id p s)) = customers s /\
  (appointments (snd (Storage.updateAppointment id p s)) = appointments s \/
   appointments (snd (Storage.updateAppointment id p s))
   = map (fun a => if Appointment.id a =? id then applyPartial p a else a)
       (appointments s)).
Proof.
  unfold Storage.updateAppointment.
  destruct (partialIsEmpty p); [simpl; auto 6|].
  destruct (invalidDate p); [simpl; auto 6|].
  destruct (negb (partialInRange id p)); [simpl; auto 6|].
  destruct (negb (partialStorable p)); [simpl; auto 6|].
  destruct (filter _ (appointments s)); [simpl; auto 6|].
  destruct (keyTaken s id p); [simpl; auto 6|].
  destruct (negb (referencesExist s p)); simpl; auto 6.
Qed.

Lemma filter_updated_other (p : PartialAppointment) (id other : nat)
    (l : list Appointment.t) :
  other <> id -> pa_id p <> Some other ->
  filter (fun a => Appointment.id a =? other)
    (map (fun a => if Appointment.id a =? id then applyPartial p a else a) l)
  = filter (fun a => Appointment.id a =? other) l.
Proof.
  intros Hne Hp. induction l as [|a l IH]; [reflexivity|]. simpl.
  destruct (Appointment.id a =? id) eqn:E.
  - apply Nat.eqb_eq in E.
    assert (O : (Appointment.id a =? other) = false)
      by (apply Nat.eqb_neq; congruence).
    assert (O' : (Appointment.id (applyPartial p a) =? other) = false).
    { apply Nat.eqb_neq. unfold applyPartial. simpl.
      destruct (pa_id p) as [k|]; simpl; congruence. }
    rewrite O, O'. exact IH.
  - destruct (Appointment.id a =? other); [f_equal|]; exact IH.
Qed.

Lemma applyPartial_twice (p : PartialAppointment) (a : Appointment.t) :
  applyPartial p (applyPartial p a) = applyPartial p a.
Proof.
  unfold applyPartial. simpl.
  destruct (pa_id p), (pa_businessId p), (pa_customerId p), (pa_serviceId p),
    (pa_staffId p), (pa_date p), (pa_startTime p), (pa_endTime p),
    (pa_status p), (pa_notes p); reflexivity.
Qed.

Lemma applyPartial_same_id (p : PartialAppointment) (id : nat)
    (a : Appointment.t) :
  (forall k, pa_id p = Some k -> k = id) ->
  Appointment.id a = id -> Appointment.id (applyPartial p a) = id.
Proof.
  intros Hp Ha. unfold applyPartial. simpl.
  destruct (pa_id p) as [k|]; simpl; [now apply Hp|exact Ha].
Qed.

Lemma map_updated_twice (p : PartialAppointment) (id : nat)
    (l : list Appointment.t) :
  (forall k, pa_id p = Some k -> k = id) ->
  map (fun a => if Appointment.id a =? id then applyPartial p a else a)
    (map (fun a => if Appointment.id a =? id then applyPartial p a else a) l)
  = map (fun a => if Appointment.id a =? id then applyPartial p a else a) l.
Proof.
  intros Hp. rewrite map_map. apply map_ext. intros a.
  destruct (Appointment.id a =? id) eqn:I.
  - apply Nat.eqb_eq in I.
    rewrite (applyPartial_same_id p id a Hp I), Nat.eqb_refl.
    apply applyPartial_twice.
  - now rewrite I.
Qed.

Lemma filter_updated_same (p : PartialAppointment) (id : nat)
    (l : list Appointment.t) :
  (forall k, pa_id p = Some k -> k = id) ->
  filter (fun a => Appointment.id a =? id)
    (map (fun a => if Appointment.id a =? id then applyPartial p a else a) l)
  = map (applyPartial p) (filter (fun a => Appointment.id a =? id) l).
Proof.
  intros Hp. induction l as [|a l IH]; [reflexivity|]. simpl.
  destruct (Appointment.id a =? id) eqn:I.
  - apply Nat.eqb_eq in I.
    rewrite (applyPartial_same_id p id a Hp I), Nat.eqb_refl. simpl.
    now rewrite IH.
  - rewrite I. exact IH.
Qed.

Lemma keyTaken_same_id (p : PartialAppointment) (id : nat) (s : Store) :
  (forall k, pa_id p = Some k -> k = id) -> keyTaken s id p = false.
Proof.
  intros Hp. unfold keyTaken. destruct (pa_id p) as [k|]; [|reflexivity].
  rewrite (Hp k eq_refl), Nat.eqb_refl. reflexivity.
Qed.

(** On the columns that are neither keys nor references, with numbers and
    text that the database stores, the update above is the update of the
    whole partial row. *)
Lemma updateAppointment_ofPatch (id : nat) (p : AppointmentPatch) (s : Store) :
  Schema.int4 id = true -> partialStorable (ofPatch p) = true ->
  Server.updateAppointment id p s = Storage.updateAppointment id (ofPatch p) s.
Proof.
  intros Hid Hst.
  unfold Server.updateAppointment, Storage.updateAppointment.
  assert (E : partialIsEmpty (ofPatch p) = patchIsEmpty p).
  { unfold partialIsEmpty, patchIsEmpty, ofPatch. simpl.
    destruct (patch_date p), (patch_startTime p), (patch_endTime p),
      (patch_status p), (patch_notes p); reflexivity. }
  rewrite E. destruct (patchIsEmpty p); [reflexivity|].
  change (invalidDate (ofPatch p)) with false. cbv iota.
  assert (R : partialInRange id (ofPatch p) = true).
  { unfold partialInRange, ofPatch. simpl. rewrite Hid. reflexivity. }
  rewrite R, Hst. simpl negb. cbv iota.
  change (keyTaken s id (ofPatch p)) with false.
  change (referencesExist s (ofPatch p)) with true.
  simpl negb. cbv iota.
  assert (F : forall l,
             map (fun a => if Appointment.id a =? id
                           then applyPatch p a else a) l
             = map (fun a => if Appointment.id a =? id
                             then applyPartial (ofPatch p) a else a) l)
    by reflexivity.
  assert (G : forall l,
             selectFirst (fun a => Appointment.id a =? id)
               (map (fun a => if Appointment.id a =? id
                              then applyPatch p a else a) l)
             = hd_error (map (applyPartial (ofPatch p))
                           (filter (fun a => Appointment.id a =? id) l))).
  { intros l. unfold selectFirst.
    induction l as [|a l IH]; [reflexivity|]. simpl.
    destruct (Appointment.id a =? id) eqn:I; simpl.
    - change (Appointment.id (applyPatch p a)) with (Appointment.id a).
      rewrite I. reflexivity.
    - rewrite I. exact IH. }
  rewrite G.
  destruct (filter (fun a => Appointment.id a =? id) (appointments s))
    as [|m ms] eqn:M; [|reflexivity].
  simpl. f_equal.
  assert (N : map (fun a => if Appointment.id a =? id
                            then applyPatch p a else a) (appointments s)
              = appointments s).
  { rewrite <- (map_id (appointments s)) at 2. apply map_ext_in.
    intros a Ha. destruct (Appointment.id a =? id) eqn:I; [|reflexivity].
    assert (Hin : In a (filter (fun a => Appointment.id a =? id)
                          (appointments s)))
      by (apply filter_In; auto).
    rewrite M in Hin. destruct Hin. }
  rewrite N. destruct s; reflexivity.
Qed.

End Updates.

(** X13.  An update touches one row key only: after [updateAppointment]
    on [id] with any partial row, whether it returned or threw,
    [getAppointment] on any other id, the one the partial row sets as new
    [id] apart, answers as before, and the customers, services, staff and
    businesses are unchanged. *)
Theorem updateAppointment_frame :
  forall (s : Server.Store) (id other : nat)
         (p : Storage.PartialAppointment),
    other <> id ->
    Storage.pa_id p <> Some other ->
    Server.getAppointment (snd (Storage.updateAppointment id p s)) other
    = Server.getAppointment s other /\
    Server.customers (snd (Storage.updateAppointment id p s))
    = Server.customers s /\
    Server.services (snd (Storage.updateAppointment id p s))
    = Server.services s /\
    Server.staff (snd (Storage.updateAppointment id p s)) = Server.staff s /\
    Server.businesses (snd (Storage.updateAppointment id p s))
    = Server.businesses s.
Proof.
  intros s id other p Hne Hp.
  destruct (updateAppointment_tables id p s) as [Tb [Tsv [Tst [Tc Ta]]]].
  split; [|auto].
  unfold Server.getAppointment, Server.selectFirst.
  destruct Ta as [-> | ->]; [reflexivity|].
  now rewrite filter_updated_other.
Qed.

Lemma updateAppointment_frame_witness :
  Server.getAppointment
    (snd (Storage.updateAppointment 1 (Cases.status "cancelled") Cases.twice)) 2
  = Server.getAppointment Cases.twice 2 /\
  Server.customers
    (snd (Storage.updateAppointment 1 (Cases.status "cancelled") Cases.twice))
  = Server.customers Cases.twice /\
  Server.services
    (snd (Storage.updateAppointment 1 (Cases.status "cancelled") Cases.twice))
  = Server.services Cases.twice /\
  Server.staff
    (snd (Storage.updateAppointment 1 (Cases.status "cancelled") Cases.twice))
  = Server.staff Cases.twice /\
  Server.businesses
    (snd (Storage.updateAppointment 1 (Cases.status "cancelled") Cases.twice))
  = Server.businesses Cases.twice.
Proof.
  apply (updateAppointment_frame Cases.twice 1 2 (Cases.status "cancelled")).
  - discriminate.
  - discriminate.
Defined.

(** X14.  Repeating an update changes nothing more, as long as the update
    does not move the row to another id: for a partial row that leaves
    [id] out or sets it to the id updated, running [updateAppointment]
    again with the same arguments on the store a first run left gives the
    same answer, value or error, and the same store as the first run. *)
Theorem updateAppointment_idempotent :
  forall (s : Server.Store) (id : nat) (p : Storage.PartialAppointment),
    (forall k, Storage.pa_id p = Some k -> k = id) ->
    Storage.updateAppointment id p (snd (Storage.updateAppointment id p s))
    = Storage.updateAppointment id p s.
Proof.
  intros s id p Hp. unfold Storage.updateAppointment at 2 3.
  destruct (Storage.partialIsEmpty p) eqn:E1;
    [simpl snd; unfold Storage.updateAppointment; now rewrite E1|].
  destruct (Storage.invalidDate p) eqn:E2;
    [simpl snd; unfold Storage.updateAppointment; now rewrite E1, E2|].
  destruct (negb (Storage.partialInRange id p)) eqn:E3;
    [simpl snd; unfold Storage.updateAppointment; now rewrite E1, E2, E3|].
  destruct (negb (Storage.partialStorable p)) eqn:E4;
    [simpl snd; unfold Storage.updateAppointment; now rewrite E1, E2, E3, E4|].
  destruct (filter _ (Server.appointments s)) as [|m ms] eqn:M;
    [simpl snd; unfold Storage.updateAppointment;
     now rewrite E1, E2, E3, E4, M|].
  rewrite (keyTaken_same_id p id s Hp).
  destruct (negb (Storage.referencesExist s p)) eqn:E5;
    [simpl snd; unfold Storage.updateAppointment;
     now rewrite E1, E2, E3, E4, M, (keyTaken_same_id p id s Hp), E5|].
  simpl snd. unfold Storage.updateAppointment.
  rewrite E1, E2, E3, E4, (keyTaken_same_id p id _ Hp).
  change (Storage.referencesExist (Storage.withAppointments s _) p)
    with (Storage.referencesExist s p).
  rewrite E5.
  simpl Server.appointments.
  rewrite (filter_updated_same p id _ Hp), M,
    (map_updated_twice p id _ Hp).
  simpl. rewrite !applyPartial_twice. reflexivity.
Qed.

Lemma updateAppointment_idempotent_witness :
  Storage.updateAppointment 1 (Cases.status "cancelled")
    (snd (Storage.updateAppointment 1 (Cases.status "cancelled") Cases.twice))
  = Storage.updateAppointment 1 (Cases.status "cancelled") Cases.twice.
Proof.
  apply (updateAppointment_idempotent Cases.twice 1 (Cases.status "cancelled")).
  intros k H. discriminate H.
Defined.

(* ===================================================================== *)
(** ** Deletions *)
(* ===================================================================== *)

Section Deletions.

Import Server Storage.

Lemma selectFirst_filter_other {A} (key : A -> nat) (l : list A) (id other : nat) :
  other <> id ->
  selectFirst (fun x => key x =? other)
    (filter (fun x => negb (key x =? id)) l)
  = selectFirst (fun x => key x =? other) l.
Proof.
  intros Hne. unfold selectFirst. f_equal.
  induction l as [|x l IH]; [reflexivity|]. simpl.
  destruct (key x =? id) eqn:E; simpl.
  - apply Nat.eqb_eq in E.
    destruct (key x =? other) eqn:O; [|exact IH].
    apply Nat.eqb_eq in O. congruence.
  - destruct (key x =? other); [f_equal|]; exact IH.
Qed.

Lemma selectFirst_filter_same {A} (key : A -> nat) (l : list A) (id : nat) :
  selectFirst (fun x => key x =? id)
    (filter (fun x => negb (key x =? id)) l) = None.
Proof.
  apply selectFirst_none. intros x Hx.
  apply filter_In in Hx as [_ Hx]. now apply negb_true_iff in Hx.
Qed.


Lemma deleteService_cases (s : Store) (id : nat) :
  ((exists a, In a (appointments s) /\ Appointment.serviceId a = id) ->
   deleteService id s = (Throw ForeignKeyViolation, s))
  /\
  ((forall a, In a (appointments s) -> Appointment.serviceId a <> id) ->
   fst (deleteService id s) = Ok tt /\
   getService (snd (deleteService id s)) id = None /\
   (forall other, other <> id ->
      getService (snd (deleteService id s)) other = getService s other) /\
   appointments (snd (deleteService id s)) = appointments s).
Proof.
  unfold deleteService. split.
  - intros [a [Ha E]].
    assert (T : existsb (fun a0 => Appointment.serviceId a0 =? id)
                  (appointments s) = true).
    { apply existsb_exists. exists a. split; [exact Ha|].
      now apply Nat.eqb_eq. }
    now rewrite T.
  - intros Hno.
    assert (T : existsb (fun a0 => Appointment.serviceId a0 =? id)
                  (appointments s) = false).
    { destruct (existsb _ (appointments s)) eqn:E; [|reflexivity].
      apply existsb_exists in E as [a [Ha E]]. apply Nat.eqb_eq in E.
      now elim (Hno a Ha). }
    rewrite T. unfold getService. simpl.
    split; [reflexivity|]. split; [apply selectFirst_filter_same|].
    split; [intros other Hne; now apply selectFirst_filter_other|reflexivity].
Qed.

End Deletions.





(* ===================================================================== *)
(** ** Management and public routes *)
(* ===================================================================== *)

Section RouteFacts.

Import Server Storage Routes.

Variable userId : Business.t -> nat.

Lemma withBusiness_some (u : nat) (b : Business.t) (k : Business.t -> M response)
    (s : Store) :
  getBusinessByUserId userId s u = Some b ->
  withBusiness userId (Some u) k s = k b s.
Proof.
  intros G. unfold withBusiness, bind, gets. simpl. rewrite G.
  destruct (k b s) as [[r|e] s']; reflexivity.
Qed.

Lemma withBusiness_none (u : nat) (k : Business.t -> M response) (s : Store) :
  getBusinessByUserId userId s u = None ->
  withBusiness userId (Some u) k s = (Ok businessNotFound, s).
Proof.
  intros G. unfold withBusiness, bind, gets. simpl. now rewrite G.
Qed.

(** The staff-side insert unfolded into its steps. *)
Lemma postAppointmentRoute_unfold (u : nat) (b : Business.t)
    (reqBody : option AppointmentData.t) (s : Store) :
  getBusinessByUserId userId s u = Some b ->
  postAppointmentRoute userId (Some u) reqBody s =
  match match reqBody with
        | Some ad => Schema.insertAppointmentSchema_parse ad
        | None => None
        end with
  | None => (Throw ZodError, s)
  | Some va =>
      match createAppointment va (Business.id b) s with
      | (Ok a, s2) => (Ok (mkResponse 201 (AppointmentRow a)), s2)
      | (Throw e, s2) => (Throw e, s2)
      end
  end.
Proof.
  intros G. unfold postAppointmentRoute.
  rewrite (withBusiness_some _ _ _ _ G). unfold bind at 1.
  destruct (match reqBody with
            | Some ad => Schema.insertAppointmentSchema_parse ad
            | None => None
            end) as [va|]; simpl; [|reflexivity].
  unfold bind.
  destruct (createAppointment va (Business.id b) s) as [[a|e] s2]; reflexivity.
Qed.

End RouteFacts.

(** X17.  Nothing is read or written for a caller without a session or
    without a business.  Without a session the services, staff,
    appointment-creation and service-deletion routes answer 401
    "Unauthorized" and leave the store as it was, whatever the request
    carries; with a session whose user owns no business, the services,
    staff and appointment-creation routes answer 404 "Business not found"
    and leave the store as it was. *)
Theorem routes_refuse_without_session_or_business :
  forall (userId : Business.t -> nat) (s : Server.Store)
         (reqBody : option AppointmentData.t) (serviceId : nat),
    (Routes.getServicesRoute userId None s = (Server.Ok Routes.unauthorized, s) /\
     Routes.getStaffRoute userId None s = (Server.Ok Routes.unauthorized, s) /\
     Routes.postAppointmentRoute userId None reqBody s
     = (Server.Ok Routes.unauthorized, s) /\
     Routes.deleteServiceRoute None serviceId s
     = (Server.Ok Routes.unauthorized, s))
    /\
    (forall u,
       Routes.getBusinessByUserId userId s u = None ->
       Routes.getServicesRoute userId (Some u) s
       = (Server.Ok Routes.businessNotFound, s) /\
       Routes.getStaffRoute userId (Some u) s
       = (Server.Ok Routes.businessNotFound, s) /\
       Routes.postAppointmentRoute userId (Some u) reqBody s
       = (Server.Ok Routes.businessNotFound, s)).
Proof.
  intros userId s reqBody serviceId. split; [repeat split|].
  intros u G. repeat split; now apply withBusiness_none.
Qed.

Lemma routes_refuse_without_session_or_business_witness :
  Routes.getServicesRoute (fun _ => 5) (Some 6) Scenario.booked
  = (Server.Ok Routes.businessNotFound, Scenario.booked) /\
  Routes.getStaffRoute (fun _ => 5) (Some 6) Scenario.booked
  = (Server.Ok Routes.businessNotFound, Scenario.booked) /\
  Routes.postAppointmentRoute (fun _ => 5) (Some 6) None Scenario.booked
  = (Server.Ok Routes.businessNotFound, Scenario.booked).
Proof.
  apply (proj2 (routes_refuse_without_session_or_business (fun _ => 5)
                  Scenario.booked None 0) 6).
  reflexivity.
Defined.

(** X18.  The service and staff lists are scoped to one business and the
    public page shows what the owner sees.  For a user who owns business
    [b], the services route returns, without writing, exactly the stored
    services whose [businessId] is the id of [b], and the staff route
    exactly the stored staff of [b]; the public booking route for that id
    answers 200 with the same two lists. *)
Theorem lists_are_scoped_to_the_business :
  forall (userId : Business.t -> nat) (s : Server.Store) (u : nat)
         (b : Business.t),
    Routes.getBusinessByUserId userId s u = Some b ->
    Routes.getServicesRoute userId (Some u) s
    = (Server.Ok (Routes.mkResponse 200
                    (Routes.ServiceList (Storage.getServices s (Business.id b)))),
       s) /\
    Routes.getStaffRoute userId (Some u) s
    = (Server.Ok (Routes.mkResponse 200
                    (Routes.StaffList (Storage.getStaff s (Business.id b)))),
       s) /\
    (forall x, In x (Storage.getServices s (Business.id b)) <->
               In x (Server.services s) /\ Service.businessId x = Business.id b) /\
    (forall x, In x (Storage.getStaff s (Business.id b)) <->
               In x (Server.staff s) /\ Staff.businessId x = Business.id b) /\
    exists b',
      Business.id b' = Business.id b /\
      Routes.getBookingInfoRoute (Business.id b) s
      = (Server.Ok (Routes.mkResponse 200
                      (Routes.BookingInfo b'
                         (Storage.getServices s (Business.id b))
                         (Storage.getStaff s (Business.id b)))),
         s).
Proof.
  intros userId s u b G.
  split; [unfold Routes.getServicesRoute; now rewrite (withBusiness_some _ _ _ _ _ G)|].
  split; [unfold Routes.getStaffRoute; now rewrite (withBusiness_some _ _ _ _ _ G)|].
  split.
  { intros x. unfold Storage.getServices. rewrite filter_In, Nat.eqb_eq. tauto. }
  split.
  { intros x. unfold Storage.getStaff. rewrite filter_In, Nat.eqb_eq. tauto. }
  unfold Routes.getBusinessByUserId in G.
  destruct (selectFirst_some _ _ _ G) as [Hin _].
  destruct (selectFirst_exists (fun y => Business.id y =? Business.id b)
              (Server.businesses s) b Hin (Nat.eqb_refl _)) as [b' Hb'].
  exists b'. destruct (selectFirst_some _ _ _ Hb') as [_ E].
  apply Nat.eqb_eq in E. split; [exact E|].
  unfold Routes.getBookingInfoRoute, Server.bind, Server.gets,
    Storage.getBusiness. simpl. now rewrite Hb'.
Qed.

Lemma lists_are_scoped_to_the_business_witness :
  Routes.getServicesRoute (fun _ => 5) (Some 5) Scenario.booked
  = (Server.Ok (Routes.mkResponse 200
                  (Routes.ServiceList
                     (Storage.getServices Scenario.booked
                        (Business.id (Business.mk 1 "B"))))),
     Scenario.booked).
Proof.
  apply (proj1 (lists_are_scoped_to_the_business (fun _ => 5) Scenario.booked 5
                  (Business.mk 1 "B") eq_refl)).
Defined.

(** X19.  Deleting a service asks for a session and for nothing else: a
    caller with any session, whether or not the user owns a business and
    whichever business the service belongs to, deletes every stored service
    that no appointment names (answer 204, the service is gone); for a
    service that an appointment names the route throws and changes
    nothing. *)
Theorem deleteServiceRoute_checks_session_only :
  forall (s : Server.Store) (u : nat) (x : Service.t),
    In x (Server.services s) ->
    ((forall a, In a (Server.appointments s) ->
        Appointment.serviceId a <> Service.id x) ->
     exists s',
       Routes.deleteServiceRoute (Some u) (Service.id x) s
       = (Server.Ok (Routes.mkResponse 204 Routes.NoBody), s') /\
       Storage.getService s' (Service.id x) = None /\
       ~ In x (Server.services s')) /\
    ((exists a, In a (Server.appointments s) /\
                Appointment.serviceId a = Service.id x) ->
     Routes.deleteServiceRoute (Some u) (Service.id x) s
     = (Server.Throw Server.ForeignKeyViolation, s)).
Proof.
  intros s u x Hin.
  destruct (deleteService_cases s (Service.id x)) as [R U].
  split.
  - intros Hno. destruct (U Hno) as [E [G _]].
    unfold Routes.deleteServiceRoute, Server.bind.
    destruct (Storage.deleteService (Service.id x) s) as [r s'] eqn:D.
    simpl in E, G. subst r. exists s'. split; [reflexivity|].
    split; [exact G|]. intros Hx.
    unfold Storage.getService in G. rewrite selectFirst_none in G.
    specialize (G x Hx). simpl in G. rewrite Nat.eqb_refl in G. discriminate.
  - intros Href. unfold Routes.deleteServiceRoute, Server.bind.
    now rewrite (R Href).
Qed.

Lemma deleteServiceRoute_checks_session_only_witness :
  exists s',
    Routes.deleteServiceRoute (Some 9) (Service.id (Service.mk 1 1 "Cut" 30))
      Scenario.shop
    = (Server.Ok (Routes.mkResponse 204 Routes.NoBody), s') /\
    Storage.getService s' (Service.id (Service.mk 1 1 "Cut" 30)) = None /\
    ~ In (Service.mk 1 1 "Cut" 30) (Server.services s').
Proof.
  apply (proj1 (deleteServiceRoute_checks_session_only Scenario.shop 9
                  (Service.mk 1 1 "Cut" 30) (or_introl eq_refl))).
  intros a [].
Defined.

(** X20.  The staff-side appointment route stores what the body says under
    the caller's business.  For a user who owns business [b], a call that
    answers does so with 201 and a row appended to the appointments whose
    [businessId] is the id of [b], whose [customerId] is the one of the
    body (an existing customer; the route does not resolve or create one)
    and whose status is the one of the body, "pending" when it has none;
    a call that throws appends no appointment; in either case no customer
    row is written.  The owner of business 1 booking customer 1 with
    service 1 and staff 1 gets appointment 2, stored as "pending". *)
Theorem postAppointmentRoute_inserts_under_own_business :
  (forall (userId : Business.t -> nat) (s s' : Server.Store) (u : nat)
          (b : Business.t) (reqBody : option AppointmentData.t),
      Routes.getBusinessByUserId userId s u = Some b ->
      (forall resp,
          Routes.postAppointmentRoute userId (Some u) reqBody s
          = (Server.Ok resp, s') ->
          exists a ad,
            reqBody = Some ad /\
            resp = Routes.mkResponse 201 (Routes.AppointmentRow a) /\
            Server.appointments s' = (Server.appointments s ++ [a])%list /\
            Server.customers s' = Server.customers s /\
            Appointment.businessId a = Business.id b /\
            AppointmentData.customerId ad = Some (Appointment.customerId a) /\
            Server.hasCustomer s (Appointment.customerId a) = true /\
            Appointment.status a
            = Server.statusOrDefault (AppointmentData.status ad))
      /\
      (forall e,
          Routes.postAppointmentRoute userId (Some u) reqBody s
          = (Server.Throw e, s') ->
          Server.appointments s' = Server.appointments s /\
          Server.customers s' = Server.customers s))
  /\
  Routes.postAppointmentRoute (fun _ => 5) (Some 5) (Some Cases.staffEntry)
    Scenario.booked
  = (Server.Ok
       (Routes.mkResponse 201
          (Routes.AppointmentRow
             (Appointment.mk 2 1 1 1 1 "2024-01-10" "11:00" "11:30" "pending"
                None))),
     Server.mkStore [Business.mk 1 "B"] [Service.mk 1 1 "Cut" 30]
       [Staff.mk 1 1 "S"] [Scenario.ann]
       [Scenario.existing;
        Appointment.mk 2 1 1 1 1 "2024-01-10" "11:00" "11:30" "pending" None]
       2 3).
Proof.
  split; [|reflexivity].
  intros userId s s' u b reqBody G.
  rewrite (postAppointmentRoute_unfold userId u b reqBody s G).
  destruct reqBody as [ad|].
  2:{ split; [intros resp H; discriminate H|].
      intros e [= <- <-]. auto. }
  destruct (Schema.insertAppointmentSchema_parse ad) as [va|] eqn:P.
  2:{ split; [intros resp H; discriminate H|].
      intros e [= <- <-]. auto. }
  destruct (insertAppointmentSchema_parse_some _ _ P)
    as [Pc [_ [_ [_ [_ [_ [Ps _]]]]]]].
  destruct (Server.createAppointment va (Business.id b) s) as [[a|e] s2] eqn:K;
    pose proof (createAppointment_store _ _ _ _ _ K)
      as [_ [_ [_ [Kc [_ [_ Ka]]]]]].
  - split; [|intros e H; discriminate H].
    intros resp [= <- <-].
    destruct Ka as [Ka [_ [Kb [Kcust [_ [_ [_ [Hc [_ [_ [_ Kst]]]]]]]]]]].
    exists a, ad. rewrite Kcust, Kst, Ps. repeat split; auto.
  - split; [intros resp H; discriminate H|].
    intros e' [= <- <-]. destruct Ka as [Ka _]. auto.
Qed.

Lemma postAppointmentRoute_inserts_under_own_business_witness :
  exists a ad,
    Some Cases.staffEntry = Some ad /\
    Routes.mkResponse 201
      (Routes.AppointmentRow
         (Appointment.mk 2 1 1 1 1 "2024-01-10" "11:00" "11:30" "pending" None))
    = Routes.mkResponse 201 (Routes.AppointmentRow a) /\
    Server.appointments
      (Server.mkStore [Business.mk 1 "B"] [Service.mk 1 1 "Cut" 30]
         [Staff.mk 1 1 "S"] [Scenario.ann]
         [Scenario.existing;
          Appointment.mk 2 1 1 1 1 "2024-01-10" "11:00" "11:30" "pending" None]
         2 3)
    = (Server.appointments Scenario.booked ++ [a])%list /\
    Server.customers
      (Server.mkStore [Business.mk 1 "B"] [Service.mk 1 1 "Cut" 30]
         [Staff.mk 1 1 "S"] [Scenario.ann]
         [Scenario.existing;
          Appointment.mk 2 1 1 1 1 "2024-01-10" "11:00" "11:30" "pending" None]
         2 3)
    = Server.customers Scenario.booked /\
    Appointment.businessId a = Business.id (Business.mk 1 "B") /\
    AppointmentData.customerId ad = Some (Appointment.customerId a) /\
    Server.hasCustomer Scenario.booked (Appointment.customerId a) = true /\
    Appointment.status a = Server.statusOrDefault (AppointmentData.status ad).
Proof.
  apply (proj1 (proj1 postAppointmentRoute_inserts_under_own_business
                  (fun _ => 5) Scenario.booked
                  (Server.mkStore [Business.mk 1 "B"] [Service.mk 1 1 "Cut" 30]
                     [Staff.mk 1 1 "S"] [Scenario.ann]
                     [Scenario.existing;
                      Appointment.mk 2 1 1 1 1 "2024-01-10" "11:00" "11:30"
                        "pending" None]
                     2 3)
                  5 (Business.mk 1 "B") (Some Cases.staffEntry) eq_refl)
           (Routes.mkResponse 201
              (Routes.AppointmentRow
                 (Appointment.mk 2 1 1 1 1 "2024-01-10" "11:00" "11:30"
                    "pending" None)))).
  reflexivity.
Defined.
